(** * Tool usage: a shallow embedding of [crewai/tools/tool_usage.py]

    The Python class [ToolUsage] resolves a free-text instruction into a
    [ToolCalling], selects the tool of that name, and runs it unless the
    call repeats the last one or the cache already holds a result.

    The object's fields and the effects on its collaborators are threaded
    through a small state-and-exception monad.  A raised exception keeps the
    state reached so far, as in Python.  The collaborators that live outside
    this file (tools handler and its cache, language model chain, I18N,
    printer, telemetry) are interfaces: the handler is a type class, the
    model chain and the message template are fields of [Collaborators], and
    printer and telemetry calls are recorded in an event log. *)

From stdpp Require Import base strings gmap list pretty.
From Stdlib Require Import ZArith Lia.
From Equations Require Import Equations.

(** ** Python values *)

(** The values a tool receives and returns.  Python's [bool] is a subclass
    of [int] ([True == 1]), so booleans are [PyInt 0] and [PyInt 1]; on
    this fragment Python's [==] is structural equality. *)
Inductive Value :=
| PyNone
| PyInt (n : Z)
| PyStr (s : string).

#[global] Instance Value_eq_dec : EqDecision Value.
Proof. solve_decision. Defined.

(** Truth value testing, as used by [if x:] and [not x]. *)
Definition truthy (v : Value) : bool :=
  match v with
  | PyNone => false
  | PyInt n => negb (n =? 0)%Z
  | PyStr s => negb (String.eqb s "")
  end.

Inductive Exception := PyException (msg : string).

#[global] Instance Exception_eq_dec : EqDecision Exception.
Proof. solve_decision. Defined.

(** Outcome of a Python call: a returned value or a raised exception. *)
Inductive Result (A : Type) :=
| Ok (a : A)
| Raise (e : Exception).
Arguments Ok {A} a.
Arguments Raise {A} e.

(** ** Data model *)

(** [crewai.tools.tool_calling.ToolCalling]: a pydantic model with a name
    and a [Dict[str, Any]]; [==] compares both fields, the dictionary
    regardless of insertion order. *)
Record ToolCalling := mkToolCalling {
  function_name : string;
  arguments : gmap string Value
}.

#[global] Instance ToolCalling_eq_dec : EqDecision ToolCalling.
Proof. solve_decision. Defined.

(** The part of [langchain_core.tools.BaseTool] that [ToolUsage] touches.
    [args] maps each argument name to its schema properties, in
    declaration order; [_run] receives the arguments as keywords. *)
Record BaseTool := mkBaseTool {
  name : string;
  description : string;
  args : list (string * list (string * string));
  _run : gmap string Value -> Result Value
}.

(** Calls made to the collaborators, in program order. *)
Inductive Event :=
| EvChainInvoke (available_tools tool_string : string)
| EvTelemetryError
| EvToolStart (calling : ToolCalling)
| EvCacheRead (tool : string) (input : gmap string Value)
| EvToolRun (tool : string) (kwargs : gmap string Value)
| EvToolEnd (calling : ToolCalling) (output : Value)
| EvPrint (content : Value)
| EvTelemetryUsage (tool_name : string) (attempts : Z).

(** [crewai.agents.tools_handler.ToolsHandler], by the interface used here.
    [last_used_tool] is [None] while the attribute holds its falsy initial
    value; a [ToolCalling] instance is always truthy.  [cache_read] returns
    [PyNone] when the cache has no entry. *)
Class ToolsHandler (TH : Type) := {
  last_used_tool : TH -> option ToolCalling;
  on_tool_start : ToolCalling -> TH -> TH;
  on_tool_end : ToolCalling -> Value -> TH -> TH;
  cache_read : TH -> string -> gmap string Value -> Value
}.

(** The remaining collaborators.  [chain_invoke k] is the outcome of the
    [k]-th call (counted from 0) of [prompt | llm | parser] on the rendered
    tool catalog and the instruction; [task_repeated_usage] is the I18N
    template already formatted with tool name and input; [repr_args] is
    Python's formatting of the filtered schema dictionary. *)
Class Collaborators := {
  chain_invoke : nat -> string -> string -> Result ToolCalling;
  task_repeated_usage : string -> gmap string Value -> string;
  repr_args : list (string * list (string * string)) -> string
}.

(** The [ToolUsage] object, with two ghost fields: the number of chain
    invocations made so far and the log of collaborator calls. *)
Record ToolUsage (TH : Type) := mkToolUsage {
  _run_attempts : Z;
  _max_parsing_attempts : Z;
  tools_handler : TH;
  tools : list BaseTool;
  llm_calls : nat;
  events : list Event
}.
Arguments mkToolUsage {TH}.
Arguments _run_attempts {TH}.
Arguments _max_parsing_attempts {TH}.
Arguments tools_handler {TH}.
Arguments tools {TH}.
Arguments llm_calls {TH}.
Arguments events {TH}.

(** ** The monad of methods *)

Definition M (TH A : Type) : Type := ToolUsage TH -> Result A * ToolUsage TH.

#[global] Instance M_ret {TH} : MRet (M TH) := fun A a s => (Ok a, s).

#[global] Instance M_bind {TH} : MBind (M TH) := fun A B k m s =>
  match m s with
  | (Ok a, s') => k a s'
  | (Raise e, s') => (Raise e, s')
  end.

Definition set_handler {TH} (h : TH) (s : ToolUsage TH) : ToolUsage TH :=
  mkToolUsage (_run_attempts s) (_max_parsing_attempts s) h (tools s)
    (llm_calls s) (events s).

Definition add_event {TH} (e : Event) (s : ToolUsage TH) : ToolUsage TH :=
  mkToolUsage (_run_attempts s) (_max_parsing_attempts s) (tools_handler s)
    (tools s) (llm_calls s) (events s ++ [e]).

(** [self._run_attempts += 1] *)
Definition bump_attempts {TH} (s : ToolUsage TH) : ToolUsage TH :=
  mkToolUsage (_run_attempts s + 1) (_max_parsing_attempts s) (tools_handler s)
    (tools s) (llm_calls s) (events s).

(** State after one call of the chain: it is logged and counted. *)
Definition invoked {TH} (available_tools tool_string : string)
    (s : ToolUsage TH) : ToolUsage TH :=
  mkToolUsage (_run_attempts s) (_max_parsing_attempts s) (tools_handler s)
    (tools s) (S (llm_calls s))
    (events s ++ [EvChainInvoke available_tools tool_string]).

Definition nl : string := String (Ascii.ascii_of_nat 10) EmptyString.

Section Methods.
Context {TH : Type} `{!ToolsHandler TH} `{!Collaborators}.

(** [ToolUsage.__init__] *)
Definition __init__ (handler : TH) (available : list BaseTool) : ToolUsage TH :=
  mkToolUsage 1 3 handler available 0 [].

(** [self.tools_handler.on_tool_start(calling=calling)] *)
Definition handler_on_tool_start (calling : ToolCalling) : M TH unit :=
  fun s => (Ok tt, add_event (EvToolStart calling)
                     (set_handler (on_tool_start calling (tools_handler s)) s)).

(** [self.tools_handler.on_tool_end(calling=calling, output=result)] *)
Definition handler_on_tool_end (calling : ToolCalling) (output : Value) : M TH unit :=
  fun s => (Ok tt, add_event (EvToolEnd calling output)
                     (set_handler (on_tool_end calling output (tools_handler s)) s)).

(** [self.tools_handler.cache.read(tool=..., input=...)] *)
Definition handler_cache_read (tool : string) (input : gmap string Value) : M TH Value :=
  fun s => (Ok (cache_read (tools_handler s) tool input),
            add_event (EvCacheRead tool input) s).

(** [tool._run] applied to the entries of [calling.arguments] as keywords *)
Definition tool_run (tool : BaseTool) (kwargs : gmap string Value) : M TH Value :=
  fun s => (_run tool kwargs, add_event (EvToolRun (name tool) kwargs) s).

(** [self._printer.print] of the result *)
Definition printer_print (content : Value) : M TH unit :=
  fun s => (Ok tt, add_event (EvPrint content) s).

(** [self._telemetry.tool_usage(llm, tool_name, attempts=self._run_attempts)] *)
Definition telemetry_tool_usage (tool_name : string) : M TH unit :=
  fun s => (Ok tt, add_event (EvTelemetryUsage tool_name (_run_attempts s)) s).

(** [ToolUsage._check_tool_repeated_usage].  The method has no [return]
    on the path where [last_used_tool] is falsy, so it yields Python's
    [None] there, modelled as [None]; otherwise the result of [==]. *)
Definition _check_tool_repeated_usage (calling : ToolCalling) : M TH (option bool) :=
  fun s =>
    match last_used_tool (tools_handler s) with
    | Some last_tool_usage => (Ok (Some (bool_decide (calling = last_tool_usage))), s)
    | None => (Ok None, s)
    end.

(** Truth value of what [_check_tool_repeated_usage] returns. *)
Definition truthy_check (r : option bool) : bool :=
  match r with
  | Some b => b
  | None => false
  end.

(** [ToolUsage._use] *)
Definition _use (tool : BaseTool) (calling : ToolCalling) : M TH Value :=
  repeated ← _check_tool_repeated_usage calling;
  result ←
    (if truthy_check repeated then
       mret (PyStr (task_repeated_usage (function_name calling) (arguments calling)))
     else
       handler_on_tool_start calling;;
       cached ← handler_cache_read (function_name calling) (arguments calling);
       if negb (truthy cached) then
         output ← tool_run tool (arguments calling);
         handler_on_tool_end calling output;;
         mret output
       else mret cached);
  printer_print result;;
  telemetry_tool_usage (name tool);;
  mret result.

(** The loop of [ToolUsage._select_tool] over [self.tools]. *)
Fixpoint select_in (available : list BaseTool) (tool_name : string) : Result BaseTool :=
  match available with
  | [] => Raise (PyException ("Tool '" +:+ tool_name +:+ "' not found."))
  | tool :: rest =>
      if String.eqb (name tool) tool_name then Ok tool
      else select_in rest tool_name
  end.

(** [ToolUsage._select_tool] *)
Definition _select_tool (tool_name : string) : M TH BaseTool :=
  fun s => (select_in (tools s) tool_name, s).

(** The dictionary comprehension of [_render]: keep, for each argument,
    the properties named [description] and [type]. *)
Definition filter_schema (schema : list (string * list (string * string)))
    : list (string * list (string * string)) :=
  map (fun kv =>
         (fst kv,
          filter (fun k2v2 => orb (String.eqb (fst k2v2) "description")
                                  (String.eqb (fst k2v2) "type"))
                 (snd kv)))
      schema.

(** [ToolUsage._render] *)
Definition _render (s : ToolUsage TH) : string :=
  String.concat (nl +:+ "--" +:+ nl)
    (map (fun tool =>
            String.concat nl
              [ "Funtion Name: " +:+ name tool;
                "Funtion attributes: " +:+ repr_args (filter_schema (args tool));
                "Description: " +:+ description tool ])
         (tools s)).

(** [ToolUsage._tool_calling].  The recursive call sits in the [except]
    block, so an exception it raises is not caught again by this frame
    and reaches the caller as it is.  The recursion is taken only while
    the incremented counter stays within [_max_parsing_attempts]. *)
Equations? _tool_calling (tool_string : string) (s : ToolUsage TH)
    : Result ToolCalling * ToolUsage TH
    by wf (Z.to_nat (_max_parsing_attempts s - _run_attempts s)) lt :=
  _tool_calling tool_string s
    with chain_invoke (llm_calls s) (_render s) tool_string => {
    | Ok calling => (Ok calling, invoked (_render s) tool_string s)
    | Raise e
        with Z_gt_le_dec (_run_attempts s + 1) (_max_parsing_attempts s) => {
        | left _ =>
            (Raise e,
             add_event EvTelemetryError
               (bump_attempts (invoked (_render s) tool_string s)))
        | right _ =>
            _tool_calling tool_string
              (bump_attempts (invoked (_render s) tool_string s)) } }.
Proof. simpl. lia. Qed.

(** [ToolUsage.use] *)
Definition use (tool_string : string) : M TH Value :=
  calling ← _tool_calling tool_string;
  tool ← _select_tool (function_name calling);
  _use tool calling.

End Methods.

(** ** Observations on runs *)

Section Observations.
Context {TH : Type} `{!ToolsHandler TH} `{!Collaborators}.

(** Number of chain calls recorded in a log. *)
Fixpoint chain_count (log : list Event) : nat :=
  match log with
  | [] => 0
  | EvChainInvoke _ _ :: rest => S (chain_count rest)
  | _ :: rest => chain_count rest
  end.

(** Number of chain calls recorded in [log] that raised, when the first
    chain call of [log] is the [k]-th call overall. *)
Fixpoint chain_failures (k : nat) (log : list Event) : Z :=
  match log with
  | [] => 0
  | EvChainInvoke available_tools tool_string :: rest =>
      (match chain_invoke k available_tools tool_string with
       | Raise _ => 1
       | Ok _ => 0
       end + chain_failures (S k) rest)%Z
  | _ :: rest => chain_failures k rest
  end.

(** The events a method added: the log of [s'] past the log of [s]. *)
Definition new_events (s s' : ToolUsage TH) : list Event :=
  drop (length (events s)) (events s').

(** The object after [use] handled the instructions in order, whether each
    call returned or raised. *)
Definition after (instructions : list string) (s : ToolUsage TH) : ToolUsage TH :=
  foldl (fun acc tool_string => snd (use tool_string acc)) s instructions.

(** What [use] returned or raised for each instruction, in order. *)
Fixpoint outcomes (instructions : list string) (s : ToolUsage TH)
    : list (Result Value) :=
  match instructions with
  | [] => []
  | tool_string :: rest =>
      fst (use tool_string s) :: outcomes rest (snd (use tool_string s))
  end.

(** Every instruction of the sequence is extracted to the same [calling],
    each one on the object left by the invocations before it. *)
Fixpoint all_resolve_to (calling : ToolCalling) (instructions : list string)
    (s : ToolUsage TH) : Prop :=
  match instructions with
  | [] => True
  | tool_string :: rest =>
      fst (_tool_calling tool_string s) = Ok calling /\
      all_resolve_to calling rest (snd (use tool_string s))
  end.

(** Events that reach the handler, its cache or a tool. *)
Definition touches_tool (ev : Event) : bool :=
  match ev with
  | EvToolStart _ | EvCacheRead _ _ | EvToolRun _ _ | EvToolEnd _ _ => true
  | _ => false
  end.

(** Attempt count carried by the last event of a log, when that event is
    the usage telemetry. *)
Definition reported_attempts (log : list Event) : option Z :=
  match last log with
  | Some (EvTelemetryUsage _ attempts) => Some attempts
  | _ => None
  end.

(** The counters agree with the log: [llm_calls] is the number of chain
    calls logged, and [_run_attempts] is one more than the number of those
    that raised. *)
Definition counted (s : ToolUsage TH) : Prop :=
  llm_calls s = chain_count (events s) /\
  _run_attempts s = (1 + chain_failures 0 (events s))%Z.

End Observations.

(** ** Concrete collaborators, used to run the methods on examples *)

Module Tracker.

(** Modelled from the spec: the tools handler and the cache behind it
    ([crewai/agents/tools_handler.py] and its cache handler are not part
    of this file).  [on_tool_start] records the call as the last used
    one; [on_tool_end] is the hook that stores the output in the cache;
    [read] returns the stored output for a tool name and input, or
    [PyNone] when there is none. *)
Record t := mk {
  last : option ToolCalling;
  store : list (string * gmap string Value * Value)
}.

Definition empty : t := mk None [].

Fixpoint read (entries : list (string * gmap string Value * Value))
    (tool : string) (input : gmap string Value) : Value :=
  match entries with
  | [] => PyNone
  | (tool', input', output) :: rest =>
      if bool_decide (tool' = tool /\ input' = input) then output
      else read rest tool input
  end.

#[global] Instance handler : ToolsHandler t := {
  last_used_tool h := last h;
  on_tool_start calling h := mk (Some calling) (store h);
  on_tool_end calling output h :=
    mk (last h) ((function_name calling, arguments calling, output) :: store h);
  cache_read h tool input := read (store h) tool input
}.

End Tracker.

Module Script.

Definition show (v : Value) : string :=
  match v with
  | PyNone => "None"
  | PyInt n => pretty n
  | PyStr s => "'" +:+ s +:+ "'"
  end.

(** Modelled from the spec: the text-understanding delegate as a script
    of outcomes, one per call, with [otherwise] once the script is used
    up; and a repeated-usage template over the tool name and arguments. *)
Definition collaborators (script : list (Result ToolCalling))
    (otherwise : Result ToolCalling) : Collaborators := {|
  chain_invoke k _ _ := default otherwise (script !! k);
  task_repeated_usage tool input :=
    "I just used the " +:+ tool +:+ " tool with input {" +:+
    String.concat ", "
      (map (fun kv => "'" +:+ fst kv +:+ "': " +:+ show (snd kv)) (map_to_list input))
    +:+ "}.";
  repr_args schema :=
    "{" +:+ String.concat ", " (map (fun kv => "'" +:+ fst kv +:+ "'") schema) +:+ "}"
|}.

Definition parse_error (n : string) : Result ToolCalling :=
  Raise (PyException ("parse error " +:+ n)).

(** The tool of the end-to-end scenario: [search] answers ["42"] on
    [{"q": "x"}] and raises on anything else. *)
Definition search : BaseTool := {|
  name := "search";
  description := "Search the web";
  args := [("q", [("title", "Q"); ("type", "string")])];
  _run kwargs :=
    if bool_decide (kwargs = {[ "q" := PyStr "x" ]}) then Ok (PyStr "42")
    else Raise (PyException "no results")
|}.

(** A second [search] entry, later in the list, with another answer. *)
Definition search_shadowed : BaseTool := {|
  name := "search";
  description := "Never selected";
  args := [];
  _run _ := Ok (PyStr "shadowed")
|}.

(** A tool whose output is the empty string. *)
Definition quiet : BaseTool := {|
  name := "quiet";
  description := "Says nothing";
  args := [];
  _run _ := Ok (PyStr "")
|}.

Definition call_search : ToolCalling := mkToolCalling "search" {[ "q" := PyStr "x" ]}.
Definition call_search_y : ToolCalling := mkToolCalling "search" {[ "q" := PyStr "y" ]}.
Definition call_quiet : ToolCalling := mkToolCalling "quiet" ∅.

(** Three failures in a row, each with its own message. *)
Definition always_failing : Collaborators :=
  collaborators [parse_error "1"; parse_error "2"; parse_error "3"] (parse_error "n").

(** Two failures, then the [search] call. *)
Definition failing_twice : Collaborators :=
  collaborators [parse_error "1"; parse_error "2"] (Ok call_search).

(** One failure, then the [search] call, then the [quiet] call. *)
Definition failing_once : Collaborators :=
  collaborators [parse_error "1"; Ok call_search] (Ok call_quiet).

(** [quiet], then [search], then [quiet] again: no failure at all. *)
Definition quiet_search_quiet : Collaborators :=
  collaborators [Ok call_quiet; Ok call_search] (Ok call_quiet).

(** Every instruction resolves to the [search] call. *)
Definition resolving : Collaborators := collaborators [] (Ok call_search).

(** Every instruction resolves to a [search] call that the tool rejects. *)
Definition resolving_y : Collaborators := collaborators [] (Ok call_search_y).

(** [search], then [quiet], then [search] again. *)
Definition search_quiet_search : Collaborators :=
  collaborators [Ok call_search; Ok call_quiet] (Ok call_search).

Definition fresh : ToolUsage Tracker.t :=
  __init__ Tracker.empty [search; search_shadowed; quiet].

(** The object after the instructions for [quiet] and for [search] have
    been handled under [quiet_search_quiet]: the cache holds the empty
    string for [quiet], and the last used call is the [search] one. *)
Definition after_quiet_search : ToolUsage Tracker.t :=
  @after _ _ quiet_search_quiet ["be quiet"; "find x"] fresh.

(** The object after one instruction has been handled under
    [failing_once], with one failed extraction on the way. *)
Definition after_one_failure : ToolUsage Tracker.t :=
  @after _ _ failing_once ["find x"] fresh.


(** The object after one [search] invocation: [call_search] is the last
    used call and its output is in the cache. *)
Definition after_search : ToolUsage Tracker.t :=
  @after _ _ resolving ["find x"] fresh.

(** The object after [search] and then [quiet] have run: the cache holds
    ["42"] for [call_search], and the last used call is the [quiet] one. *)
Definition after_search_quiet : ToolUsage Tracker.t :=
  @after _ _ search_quiet_search ["find x"; "be quiet"] fresh.

(** An object on its third attempt, two chain calls behind it. *)
Definition on_third_attempt : ToolUsage Tracker.t :=
  mkToolUsage 3 3 Tracker.empty [search] 2 [].

(** Two failures, the [search] call, and failures from then on. *)
Definition retries_spent : Collaborators :=
  collaborators [parse_error "1"; parse_error "2"; Ok call_search] (parse_error "n").

(** The object after one invocation that needed two retries: the counter
    has reached the threshold. *)
Definition after_two_retries : ToolUsage Tracker.t :=
  @after _ _ retries_spent ["find x"] fresh.

(** A call to a tool that no list here holds. *)
Definition call_missing : ToolCalling := mkToolCalling "missing" ∅.

(** One failure, then the call to the missing tool. *)
Definition resolving_missing : Collaborators :=
  collaborators [parse_error "1"] (Ok call_missing).

End Script.

(** * Properties *)

Section Properties.
Context {TH : Type} `{!ToolsHandler TH} `{!Collaborators}.
Implicit Types (s : ToolUsage TH) (handler : TH) (calling : ToolCalling) (tool : BaseTool).

(** ** Unfolding [_tool_calling] one attempt at a time *)

Lemma tool_calling_ok tool_string s calling :
  chain_invoke (llm_calls s) (_render s) tool_string = Ok calling ->
  _tool_calling tool_string s = (Ok calling, invoked (_render s) tool_string s).
Proof.
  intros Hc. simp _tool_calling. rewrite Hc. simpl. reflexivity.
Qed.

Lemma tool_calling_give_up tool_string s e :
  chain_invoke (llm_calls s) (_render s) tool_string = Raise e ->
  (_run_attempts s + 1 > _max_parsing_attempts s)%Z ->
  _tool_calling tool_string s =
    (Raise e, add_event EvTelemetryError
                (bump_attempts (invoked (_render s) tool_string s))).
Proof.
  intros Hc Hgt. simp _tool_calling. rewrite Hc. simpl.
  destruct (Z_gt_le_dec _ _); [reflexivity | lia].
Qed.

Lemma tool_calling_retry tool_string s e :
  chain_invoke (llm_calls s) (_render s) tool_string = Raise e ->
  (_run_attempts s + 1 <= _max_parsing_attempts s)%Z ->
  _tool_calling tool_string s =
    _tool_calling tool_string (bump_attempts (invoked (_render s) tool_string s)).
Proof.
  intros Hc Hle. rewrite (_tool_calling_equation_1 tool_string s). rewrite Hc. simpl.
  destruct (Z_gt_le_dec _ _); [lia | reflexivity].
Qed.

(** ** The usage guard *)

Lemma check_repeated calling s :
  last_used_tool (tools_handler s) = Some calling ->
  _check_tool_repeated_usage calling s = (Ok (Some true), s).
Proof.
  intros Hlast. unfold _check_tool_repeated_usage. rewrite Hlast.
  rewrite bool_decide_eq_true_2; reflexivity.
Qed.

Lemma check_not_repeated calling s :
  last_used_tool (tools_handler s) <> Some calling ->
  exists r, _check_tool_repeated_usage calling s = (Ok r, s) /\ truthy_check r = false.
Proof.
  intros Hlast. unfold _check_tool_repeated_usage.
  destruct (last_used_tool (tools_handler s)) as [last_tool_usage|] eqn:E.
  - exists (Some (bool_decide (calling = last_tool_usage))). split; [reflexivity|].
    simpl. apply bool_decide_eq_false_2. congruence.
  - exists None. split; reflexivity.
Qed.

(** C8: [_check_tool_repeated_usage] answers [True] exactly when the
    handler holds a last used call and that call equals [calling]; in
    every case it returns normally and leaves the whole object, handler
    and event log included, as it found it. *)
Theorem check_tool_repeated_usage_spec calling s :
  exists r,
    _check_tool_repeated_usage calling s = (Ok r, s) /\
    (r = Some true <->
     exists last_tool_usage,
       last_used_tool (tools_handler s) = Some last_tool_usage /\
       calling = last_tool_usage).
Proof.
  unfold _check_tool_repeated_usage.
  destruct (last_used_tool (tools_handler s)) as [last_tool_usage|] eqn:E.
  - eexists; split; [reflexivity|]. split.
    + intros [= Hb]. apply bool_decide_eq_true_1 in Hb. eauto.
    + intros (l & [= <-] & ->). rewrite bool_decide_eq_true_2; reflexivity.
  - exists None. split; [reflexivity|]. split; [discriminate|].
    intros (l & Hl & _). discriminate.
Qed.

(** ** The three paths of [_use] *)

Ltac run_use :=
  unfold _use, handler_on_tool_start, handler_cache_read, tool_run,
    handler_on_tool_end, printer_print, telemetry_tool_usage,
    mbind, mret, M_bind, M_ret; simpl.

(** The repeated-usage path of [_use], with the object it leaves. *)
Lemma use_repeated_step tool calling s :
  last_used_tool (tools_handler s) = Some calling ->
  exists s',
    _use tool calling s =
      (Ok (PyStr (task_repeated_usage (function_name calling) (arguments calling))),
       s') /\
    tools_handler s' = tools_handler s /\
    tools s' = tools s /\
    events s' =
      events s ++
        [EvPrint (PyStr (task_repeated_usage (function_name calling)
                           (arguments calling)));
         EvTelemetryUsage (name tool) (_run_attempts s)].
Proof.
  intros Hlast. run_use. rewrite (check_repeated _ _ Hlast). simpl.
  eexists; split; [reflexivity|]. repeat split.
  simpl. rewrite <- app_assoc. reflexivity.
Qed.

(** C1: when the call equals the handler's last used call, [_use]
    returns the repeated-usage message built from the call's tool name
    and arguments; the handler (and so its cache) is unchanged and the
    only collaborator calls are the print and the usage telemetry: no
    tool run, no [on_tool_start], no [on_tool_end]. *)
Theorem use_repeated_call tool calling s :
  last_used_tool (tools_handler s) = Some calling ->
  let message :=
    PyStr (task_repeated_usage (function_name calling) (arguments calling)) in
  exists s',
    _use tool calling s = (Ok message, s') /\
    tools_handler s' = tools_handler s /\
    events s' =
      events s ++ [EvPrint message; EvTelemetryUsage (name tool) (_run_attempts s)].
Proof.
  intros Hlast message.
  destruct (use_repeated_step tool calling s Hlast) as (s' & Hrun & Hh & _ & Hev).
  exists s'. repeat split; assumption.
Qed.

(** C2, as amended: when the call is not a repeat and the cache read
    returns a truthy value, that value is the result as it is; the tool
    is not run and [on_tool_end] is not called. *)
Theorem use_cache_hit tool calling s cached :
  last_used_tool (tools_handler s) <> Some calling ->
  cache_read (on_tool_start calling (tools_handler s))
    (function_name calling) (arguments calling) = cached ->
  truthy cached = true ->
  exists s',
    _use tool calling s = (Ok cached, s') /\
    tools_handler s' = on_tool_start calling (tools_handler s) /\
    events s' =
      events s ++ [EvToolStart calling;
                   EvCacheRead (function_name calling) (arguments calling);
                   EvPrint cached;
                   EvTelemetryUsage (name tool) (_run_attempts s)].
Proof.
  intros Hlast Hread Htruthy.
  destruct (check_not_repeated _ _ Hlast) as (r & Hr & Hfalse).
  run_use. rewrite Hr, Hfalse. simpl. rewrite Hread, Htruthy. simpl.
  eexists; split; [reflexivity|]. split; [reflexivity|].
  simpl. rewrite <- !app_assoc. reflexivity.
Qed.

(** C5: when the call is not a repeat, the cache read returns nothing
    and the tool's action returns [output], [_use] calls, in this order,
    [on_tool_start] with the call, the cache read, the tool with the
    call's arguments, [on_tool_end] with the call and the output, the
    printer, and the usage telemetry with the tool's name and the current
    attempt count; it returns [output]. *)
Theorem use_cache_miss_runs_tool tool calling s output :
  last_used_tool (tools_handler s) <> Some calling ->
  cache_read (on_tool_start calling (tools_handler s))
    (function_name calling) (arguments calling) = PyNone ->
  _run tool (arguments calling) = Ok output ->
  exists s',
    _use tool calling s = (Ok output, s') /\
    tools_handler s' =
      on_tool_end calling output (on_tool_start calling (tools_handler s)) /\
    events s' =
      events s ++ [EvToolStart calling;
                   EvCacheRead (function_name calling) (arguments calling);
                   EvToolRun (name tool) (arguments calling);
                   EvToolEnd calling output;
                   EvPrint output;
                   EvTelemetryUsage (name tool) (_run_attempts s)].
Proof.
  intros Hlast Hread Hrun.
  destruct (check_not_repeated _ _ Hlast) as (r & Hr & Hfalse).
  run_use. rewrite Hr, Hfalse. simpl. rewrite Hread. simpl. rewrite Hrun.
  eexists; split; [reflexivity|]. split; [reflexivity|].
  simpl. rewrite <- !app_assoc. reflexivity.
Qed.

(** [use] hands the extracted call and the selected tool to [_use]. *)
Lemma use_dispatch tool_string s calling s1 tool :
  _tool_calling tool_string s = (Ok calling, s1) ->
  select_in (tools s1) (function_name calling) = Ok tool ->
  use tool_string s = _use tool calling s1.
Proof.
  intros Hcall Hsel. unfold use, _select_tool, mbind, M_bind.
  rewrite Hcall, Hsel. reflexivity.
Qed.

(** C7: when the call is not a repeat, the cache gives nothing usable and
    the tool's action raises [e], then [_use], and [use] around it, raise
    [e] itself.  The tool has been run once; nothing follows the run: no
    second run, no chain call, no [on_tool_end], no print, no telemetry,
    and the attempt counter is as extraction left it. *)
Theorem tool_failure_propagates tool_string s calling s1 tool e :
  _tool_calling tool_string s = (Ok calling, s1) ->
  select_in (tools s1) (function_name calling) = Ok tool ->
  last_used_tool (tools_handler s1) <> Some calling ->
  truthy (cache_read (on_tool_start calling (tools_handler s1))
            (function_name calling) (arguments calling)) = false ->
  _run tool (arguments calling) = Raise e ->
  exists s',
    use tool_string s = (Raise e, s') /\
    _use tool calling s1 = (Raise e, s') /\
    events s' =
      events s1 ++ [EvToolStart calling;
                    EvCacheRead (function_name calling) (arguments calling);
                    EvToolRun (name tool) (arguments calling)] /\
    llm_calls s' = llm_calls s1 /\
    _run_attempts s' = _run_attempts s1.
Proof.
  intros Hcall Hsel Hlast Hread Hrun.
  rewrite (use_dispatch _ _ _ _ _ Hcall Hsel).
  destruct (check_not_repeated _ _ Hlast) as (r & Hr & Hfalse).
  run_use. rewrite Hr, Hfalse. simpl. rewrite Hread. simpl. rewrite Hrun.
  eexists; repeat split; try reflexivity.
  simpl. rewrite <- !app_assoc. reflexivity.
Qed.

(** ** Tool selection *)

Lemma select_in_absent available tool_name :
  Forall (fun tool => name tool <> tool_name) available ->
  select_in available tool_name =
    Raise (PyException ("Tool '" +:+ tool_name +:+ "' not found.")).
Proof.
  induction 1 as [|tool rest Hne _ IH]; simpl; [reflexivity|].
  destruct (String.eqb_spec (name tool) tool_name); [contradiction | exact IH].
Qed.

Lemma select_in_first before tool after tool_name :
  Forall (fun other => name other <> tool_name) before ->
  name tool = tool_name ->
  select_in (before ++ tool :: after) tool_name = Ok tool.
Proof.
  intros Hbefore Hname.
  induction Hbefore as [|other rest Hne _ IH]; simpl.
  - rewrite Hname, String.eqb_refl. reflexivity.
  - destruct (String.eqb_spec (name other) tool_name); [contradiction | exact IH].
Qed.

(** Any list splits at the first tool of a given name, if there is one. *)
Lemma first_named available tool_name :
  Forall (fun tool => name tool <> tool_name) available \/
  exists before tool after,
    available = before ++ tool :: after /\
    name tool = tool_name /\
    Forall (fun other => name other <> tool_name) before.
Proof.
  induction available as [|tool rest IH].
  - left. constructor.
  - destruct (String.eqb_spec (name tool) tool_name) as [Heq|Hne].
    + right. exists [], tool, rest. repeat split; [exact Heq | constructor].
    + destruct IH as [Hall | (before & found & after & -> & Hname & Hbefore)].
      * left. constructor; assumption.
      * right. exists (tool :: before), found, after.
        repeat split; [exact Hname | constructor; assumption].
Qed.

(** C6: [_select_tool] scans [self.tools] in order and compares names with
    string equality.  (1) A name carried by no tool raises the exception
    whose message quotes the requested name.  (2) A name carried by exactly
    one tool returns that tool.  (3) Whatever follows it, the first tool of
    that name in list order is the one returned, duplicates included.
    (4) Letter case matters: a tool named [search] is not found under
    [Search].  The object is never changed. *)
Theorem select_tool_spec s tool_name :
  (Forall (fun tool => name tool <> tool_name) (tools s) ->
   _select_tool tool_name s =
     (Raise (PyException ("Tool '" +:+ tool_name +:+ "' not found.")), s)) /\
  (forall tool,
     tool ∈ tools s -> name tool = tool_name ->
     length (filter (fun other => name other = tool_name) (tools s)) = 1 ->
     _select_tool tool_name s = (Ok tool, s)) /\
  (forall before tool after,
     tools s = before ++ tool :: after ->
     Forall (fun other => name other <> tool_name) before ->
     name tool = tool_name ->
     _select_tool tool_name s = (Ok tool, s)) /\
  (forall tool,
     tools s = [tool] -> name tool = "search" -> tool_name = "Search" ->
     _select_tool tool_name s =
       (Raise (PyException "Tool 'Search' not found."), s)).
Proof.
  unfold _select_tool. repeat split.
  - intros Hall. rewrite (select_in_absent _ _ Hall). reflexivity.
  - intros tool Hin Hname Hone.
    destruct (first_named (tools s) tool_name)
      as [Hall | (before & found & after & Heq & Hfound & Hbefore)].
    + rewrite Forall_forall in Hall. destruct (Hall _ Hin Hname).
    + assert (Hsame : found = tool).
      { destruct (filter (fun other => name other = tool_name) (tools s))
          as [|only [|]] eqn:Ef; try discriminate.
        assert (Ht : tool ∈ [only]).
        { rewrite <- Ef. apply list_elem_of_filter. split; assumption. }
        assert (Hf : found ∈ [only]).
        { rewrite <- Ef. apply list_elem_of_filter. split; [assumption|].
          rewrite Heq. apply elem_of_app. right. left. }
        apply list_elem_of_singleton in Ht, Hf. congruence. }
      rewrite Heq, (select_in_first _ _ _ _ Hbefore Hfound), Hsame. reflexivity.
  - intros before tool after Heq Hbefore Hname.
    rewrite Heq, (select_in_first _ _ _ _ Hbefore Hname). reflexivity.
  - intros tool Heq Hname ->. rewrite Heq. simpl. rewrite Hname. reflexivity.
Qed.

(** ** Extraction and its retries *)

(** C3: on a freshly constructed object, (1) when every chain call fails,
    [_tool_calling] makes exactly three chain calls, reports the error to
    telemetry once and raises; (2) when the first two chain calls fail and
    the third returns [calling], [_tool_calling] returns [calling] after
    exactly three chain calls, and [_run_attempts] is 3. *)
Theorem tool_calling_retry_bound handler available tool_string :
  let s0 := __init__ handler available in
  let attempt := EvChainInvoke (_render s0) tool_string in
  ((forall k, exists e, chain_invoke k (_render s0) tool_string = Raise e) ->
   exists e s',
     _tool_calling tool_string s0 = (Raise e, s') /\
     llm_calls s' = 3 /\
     events s' = [attempt; attempt; attempt; EvTelemetryError]) /\
  (forall e1 e2 calling,
     chain_invoke 0 (_render s0) tool_string = Raise e1 ->
     chain_invoke 1 (_render s0) tool_string = Raise e2 ->
     chain_invoke 2 (_render s0) tool_string = Ok calling ->
     exists s',
       _tool_calling tool_string s0 = (Ok calling, s') /\
       _run_attempts s' = 3%Z /\
       llm_calls s' = 3 /\
       events s' = [attempt; attempt; attempt]).
Proof.
  intros s0 attempt. split.
  - intros Hfail.
    destruct (Hfail 0) as [e1 H1], (Hfail 1) as [e2 H2], (Hfail 2) as [e3 H3].
    exists e3. eexists.
    rewrite (tool_calling_retry _ s0 e1); [|exact H1 | simpl; lia].
    rewrite (tool_calling_retry _ _ e2); [|exact H2 | simpl; lia].
    rewrite (tool_calling_give_up _ _ e3); [|exact H3 | simpl; lia].
    repeat split.
  - intros e1 e2 calling H1 H2 H3. eexists.
    rewrite (tool_calling_retry _ s0 e1); [|exact H1 | simpl; lia].
    rewrite (tool_calling_retry _ _ e2); [|exact H2 | simpl; lia].
    rewrite (tool_calling_ok _ _ calling); [|exact H3].
    repeat split.
Qed.

(** Extraction touches neither the handler nor the tool list nor the
    threshold, it only appends to the log, and it never lowers the
    counters. *)
Lemma tool_calling_frame tool_string s :
  let s' := snd (_tool_calling tool_string s) in
  tools_handler s' = tools_handler s /\
  tools s' = tools s /\
  _max_parsing_attempts s' = _max_parsing_attempts s /\
  (_run_attempts s <= _run_attempts s')%Z /\
  llm_calls s < llm_calls s' /\
  exists added,
    events s' = events s ++ added /\
    Forall (fun ev => touches_tool ev = false) added.
Proof.
  funelim (_tool_calling tool_string s); simpl.
  - repeat split; try lia. eexists. split; [reflexivity|].
    repeat constructor.
  - repeat split; try lia.
    eexists. rewrite <- app_assoc. split; [reflexivity|]. repeat constructor.
  - match goal with
    | IH : _ /\ _ |- _ =>
        destruct IH as (Hh & Ht & Hm & Ha & Hl & added & Hev & Hquiet)
    end.
    simpl in *. repeat split; try congruence; try lia.
    eexists. rewrite Hev, <- app_assoc. split; [reflexivity|].
    constructor; [reflexivity | exact Hquiet].
Qed.

(** C4, as amended: (1) when a chain call fails with [e] and the
    incremented counter exceeds the threshold, [_tool_calling] makes no
    further chain call, reports the error to telemetry and raises [e],
    the failure of that very attempt; (2) whenever [_tool_calling] raises,
    the counter is above the threshold, the exception is the one of the
    last chain call made, and the log ends with that call followed by the
    error telemetry. *)
Theorem tool_calling_raises_last_failure tool_string s :
  (forall e,
     chain_invoke (llm_calls s) (_render s) tool_string = Raise e ->
     (_run_attempts s + 1 > _max_parsing_attempts s)%Z ->
     exists s',
       _tool_calling tool_string s = (Raise e, s') /\
       llm_calls s' = S (llm_calls s) /\
       _run_attempts s' = (_run_attempts s + 1)%Z /\
       events s' =
         events s ++ [EvChainInvoke (_render s) tool_string; EvTelemetryError]) /\
  (forall e s',
     _tool_calling tool_string s = (Raise e, s') ->
     (_run_attempts s' > _max_parsing_attempts s')%Z /\
     (exists last_call,
        llm_calls s' = S last_call /\
        chain_invoke last_call (_render s) tool_string = Raise e) /\
     exists earlier,
       events s' =
         earlier ++ [EvChainInvoke (_render s) tool_string; EvTelemetryError]).
Proof.
  split.
  - intros e Hc Hgt. eexists. rewrite (tool_calling_give_up _ _ _ Hc Hgt).
    repeat split. simpl. rewrite <- app_assoc. reflexivity.
  - funelim (_tool_calling tool_string s); intros e' s'.
    + discriminate.
    + intros [= <- <-]. simpl. repeat split; [lia | eauto |].
      eexists. rewrite <- app_assoc. reflexivity.
    + intros Hrec.
      match goal with
      | IH : forall e s', _ = _ -> _ |- _ => exact (IH _ _ Hrec)
      end.
Qed.

(** ** The attempt counter across invocations *)

Lemma chain_count_app (log1 log2 : list Event) :
  chain_count (log1 ++ log2) = chain_count log1 + chain_count log2.
Proof.
  induction log1 as [|ev log1 IH]; simpl; [reflexivity|].
  destruct ev; simpl; rewrite IH; reflexivity.
Qed.

Lemma chain_failures_app k (log1 log2 : list Event) :
  chain_failures k (log1 ++ log2) =
    (chain_failures k log1 + chain_failures (k + chain_count log1) log2)%Z.
Proof.
  revert k. induction log1 as [|ev log1 IH]; intros k; simpl.
  - rewrite Nat.add_0_r. reflexivity.
  - destruct ev; simpl; rewrite IH; try reflexivity.
    rewrite Nat.add_succ_r. simpl. lia.
Qed.

Lemma new_events_app s s' (added : list Event) :
  events s' = events s ++ added -> new_events s s' = added.
Proof.
  intros Hev. unfold new_events. rewrite Hev. apply drop_app_length.
Qed.

Lemma counted_init handler available : counted (__init__ handler available).
Proof. split; reflexivity. Qed.

(** Each attempt of [_tool_calling] adds one chain call to the log, and one
    to [_run_attempts] exactly when that call raised. *)
Lemma tool_calling_counts tool_string s :
  let s' := snd (_tool_calling tool_string s) in
  llm_calls s' = llm_calls s + chain_count (new_events s s') /\
  _run_attempts s' =
    (_run_attempts s + chain_failures (llm_calls s) (new_events s s'))%Z /\
  exists added, events s' = events s ++ added.
Proof.
  funelim (_tool_calling tool_string s); simpl.
  - erewrite new_events_app by reflexivity. simpl.
    match goal with Hc : chain_invoke _ _ _ = _ |- _ => rewrite Hc end.
    repeat split; try lia. eauto.
  - erewrite new_events_app by (simpl; rewrite <- app_assoc; reflexivity).
    simpl.
    match goal with Hc : chain_invoke _ _ _ = _ |- _ => rewrite Hc end.
    repeat split; try lia. eexists. rewrite <- app_assoc. reflexivity.
  - match goal with
    | IH : _ /\ _ |- _ => destruct IH as (Hl & Ha & added & Hev)
    end.
    rewrite (new_events_app _ _ _ Hev) in Hl, Ha.
    simpl in Hl, Ha, Hev.
    assert (Hall : events (_tool_calling tool_string
                     (bump_attempts (invoked (_render s) tool_string s))).2 =
                   events s ++ EvChainInvoke (_render s) tool_string :: added).
    { rewrite Hev, <- app_assoc. reflexivity. }
    rewrite (new_events_app _ _ _ Hall). simpl.
    match goal with Hc : chain_invoke _ _ _ = _ |- _ => rewrite Hc end.
    repeat split; try lia. eauto.
Qed.

Lemma counted_tool_calling tool_string s :
  counted s -> counted (snd (_tool_calling tool_string s)).
Proof.
  intros [Hl Ha].
  destruct (tool_calling_counts tool_string s) as (Hl' & Ha' & added & Hev).
  rewrite (new_events_app _ _ _ Hev) in Hl', Ha'.
  split; rewrite Hev.
  - rewrite chain_count_app. lia.
  - rewrite chain_failures_app. simpl. rewrite <- Hl. lia.
Qed.

(** [_use] leaves the counters, the tool list and the threshold alone; it
    adds no chain call to the log; when it returns, the last thing it did
    was the usage telemetry, with the tool's name and [_run_attempts]. *)
Lemma use_inner_frame tool calling s :
  let r := fst (_use tool calling s) in
  let s' := snd (_use tool calling s) in
  llm_calls s' = llm_calls s /\
  _run_attempts s' = _run_attempts s /\
  _max_parsing_attempts s' = _max_parsing_attempts s /\
  tools s' = tools s /\
  exists added,
    events s' = events s ++ added /\
    chain_count added = 0 /\
    (forall k, chain_failures k added = 0%Z) /\
    (forall result, r = Ok result ->
       exists before,
         added = before ++ [EvTelemetryUsage (name tool) (_run_attempts s)]).
Proof.
  run_use. unfold _check_tool_repeated_usage.
  destruct (last_used_tool (tools_handler s)) as [last_tool_usage|]; simpl.
  1: destruct (bool_decide (calling = last_tool_usage)); simpl.
  2, 3: destruct (truthy (cache_read _ _ _)); simpl.
  3, 5: destruct (_run tool (arguments calling)); simpl.
  all: repeat split.
  all: eexists; rewrite <- ?app_assoc; simpl.
  all: split; [reflexivity|]; repeat split.
  all: intros result Hr; try discriminate Hr.
  all: first [ by eexists [_] | by eexists [_; _; _] | by eexists [_; _; _; _; _] ].
Qed.

Lemma counted_use tool_string s :
  counted s -> counted (snd (use tool_string s)).
Proof.
  intros Hs. apply (counted_tool_calling tool_string) in Hs.
  unfold use, _select_tool, mbind, M_bind.
  destruct (_tool_calling tool_string s) as [[calling|e] s1]; [|exact Hs].
  simpl in Hs.
  destruct (select_in (tools s1) (function_name calling)) as [tool|e]; [|exact Hs].
  destruct (use_inner_frame tool calling s1)
    as (Hl & Ha & _ & _ & added & Hev & Hcount & Hfail & _).
  destruct Hs as [Hl1 Ha1]. split.
  - rewrite Hl, Hev, chain_count_app. lia.
  - rewrite Ha, Hev, chain_failures_app, Hfail. lia.
Qed.

Lemma counted_after instructions s :
  counted s -> counted (after instructions s).
Proof.
  revert s. induction instructions as [|tool_string rest IH]; intros s Hs.
  - exact Hs.
  - simpl. apply IH, counted_use, Hs.
Qed.

(** C9, as amended: [_run_attempts] belongs to the object, is set to 1 by
    [__init__] and is never reset.  On an object that has handled any
    sequence of instructions since its construction, when [use] returns,
    the attempts it reported to telemetry are (1) one more than the number
    of chain failures since construction, over all invocations, which is
    (2) the counter as the earlier invocations left it plus the failures of
    this invocation.  (3) On the first invocation of a fresh object that is
    one more than the failures of this invocation. *)
Theorem reported_attempts_since_construction
    handler available instructions tool_string result s' :
  let s := after instructions (__init__ handler available) in
  use tool_string s = (Ok result, s') ->
  reported_attempts (events s') = Some (1 + chain_failures 0 (events s'))%Z /\
  reported_attempts (events s') =
    Some (_run_attempts s + chain_failures (llm_calls s) (new_events s s'))%Z /\
  (instructions = [] ->
   reported_attempts (events s') =
     Some (1 + chain_failures 0 (new_events s s'))%Z).
Proof.
  intros s Huse.
  assert (Hs : counted s) by apply counted_after, counted_init.
  assert (Hs' : counted s').
  { pose proof (counted_use tool_string s Hs) as Hc.
    rewrite Huse in Hc. exact Hc. }
  destruct (tool_calling_counts tool_string s) as (_ & Ha1 & added1 & Hev1).
  rewrite (new_events_app _ _ _ Hev1) in Ha1.
  unfold use, _select_tool, mbind, M_bind in Huse.
  destruct (_tool_calling tool_string s) as [[calling|e] s1]; [|discriminate].
  simpl in Ha1, Hev1.
  destruct (select_in (tools s1) (function_name calling)) as [tool|e];
    [|discriminate].
  destruct (use_inner_frame tool calling s1)
    as (_ & Ha2 & _ & _ & added2 & Hev2 & _ & Hfail & Hlast).
  rewrite Huse in Ha2, Hev2, Hlast. simpl in Ha2, Hev2, Hlast.
  destruct (Hlast result eq_refl) as [before ->].
  assert (Hreport : reported_attempts (events s') = Some (_run_attempts s1)).
  { unfold reported_attempts. rewrite Hev2, !app_assoc, last_snoc. reflexivity. }
  assert (Hnew : new_events s s' =
                 added1 ++ before ++ [EvTelemetryUsage (name tool) (_run_attempts s1)]).
  { apply new_events_app. rewrite Hev2, Hev1, <- app_assoc. reflexivity. }
  assert (Hthis : (_run_attempts s1 =
                   _run_attempts s + chain_failures (llm_calls s) (new_events s s'))%Z).
  { rewrite Hnew, chain_failures_app, Hfail. lia. }
  repeat split.
  - rewrite Hreport. f_equal. destruct Hs' as [_ Ha']. lia.
  - rewrite Hreport, Hthis. reflexivity.
  - intros ->. rewrite Hreport, Hthis. reflexivity.
Qed.

(** ** Repeated calls *)

(** C10: when the handler's last used call is [calling], any run of
    consecutive invocations that all resolve to [calling] returns the
    repeated-usage message every time, not only the first time.  The
    handler ends as it started, so [last_used_tool] is still [calling], and
    nothing added to the log is an [on_tool_start], a cache read, a tool
    run or an [on_tool_end]. *)
Theorem repeated_calls_stay_suppressed calling tool instructions s :
  last_used_tool (tools_handler s) = Some calling ->
  select_in (tools s) (function_name calling) = Ok tool ->
  all_resolve_to calling instructions s ->
  outcomes instructions s =
    map (fun _ => Ok (PyStr (task_repeated_usage (function_name calling)
                               (arguments calling))))
        instructions /\
  tools_handler (after instructions s) = tools_handler s /\
  last_used_tool (tools_handler (after instructions s)) = Some calling /\
  exists added,
    events (after instructions s) = events s ++ added /\
    Forall (fun ev => touches_tool ev = false) added.
Proof.
  revert s. induction instructions as [|tool_string rest IH];
    intros s Hlast Hsel Hall.
  - simpl. repeat split; [exact Hlast|]. exists []. rewrite app_nil_r.
    split; [reflexivity | constructor].
  - destruct Hall as [Hcall Hrest].
    destruct (tool_calling_frame tool_string s)
      as (Hh1 & Ht1 & _ & _ & _ & added1 & Hev1 & Hquiet1).
    destruct (_tool_calling tool_string s) as [r s1] eqn:Etc.
    simpl in Hcall, Hh1, Ht1, Hev1. subst r.
    assert (Hsel1 : select_in (tools s1) (function_name calling) = Ok tool)
      by (rewrite Ht1; exact Hsel).
    assert (Hlast1 : last_used_tool (tools_handler s1) = Some calling)
      by (rewrite Hh1; exact Hlast).
    pose proof (use_dispatch _ _ _ _ _ Etc Hsel1) as Huse.
    destruct (use_repeated_step tool calling s1 Hlast1) as (s2 & Hrun & Hh2 & Ht2 & Hev2).
    rewrite Hrun in Huse.
    simpl. rewrite Huse in *. simpl in *.
    destruct (IH s2) as (Hout & Hh & Hl & added & Hev & Hquiet).
    + rewrite Hh2. exact Hlast1.
    + rewrite Ht2. exact Hsel1.
    + exact Hrest.
    + repeat split.
      * rewrite Hout. reflexivity.
      * rewrite Hh, Hh2. exact Hh1.
      * exact Hl.
      * eexists. rewrite Hev, Hev2, Hev1, <- !app_assoc. split; [reflexivity|].
        apply Forall_app. split; [exact Hquiet1|].
        repeat (constructor; [reflexivity|]). exact Hquiet.
Qed.

End Properties.

(** * The theorems on concrete runs *)

Section Runs.
Import Script.

Lemma use_repeated_call_witness :
  last_used_tool (tools_handler after_search) = Some call_search /\
  exists s',
    @_use _ _ resolving search call_search after_search =
      (Ok (PyStr "I just used the search tool with input {'q': 'x'}."), s') /\
    tools_handler s' = tools_handler after_search /\
    events s' =
      events after_search ++
        [EvPrint (PyStr "I just used the search tool with input {'q': 'x'}.");
         EvTelemetryUsage "search" 1].
Proof.
  split; [reflexivity|].
  exact (@use_repeated_call _ _ resolving search call_search after_search eq_refl).
Defined.

Lemma use_cache_hit_witness :
  last_used_tool (tools_handler after_search_quiet) <> Some call_search /\
  cache_read (on_tool_start call_search (tools_handler after_search_quiet))
    "search" {[ "q" := PyStr "x" ]} = PyStr "42" /\
  truthy (PyStr "42") = true /\
  exists s',
    @_use _ _ search_quiet_search search call_search after_search_quiet =
      (Ok (PyStr "42"), s') /\
    tools_handler s' = on_tool_start call_search (tools_handler after_search_quiet) /\
    events s' =
      events after_search_quiet ++
        [EvToolStart call_search;
         EvCacheRead "search" {[ "q" := PyStr "x" ]};
         EvPrint (PyStr "42");
         EvTelemetryUsage "search" 1].
Proof.
  assert (Hlast : last_used_tool (tools_handler after_search_quiet)
                  <> Some call_search) by (vm_compute; discriminate).
  repeat split; [exact Hlast|].
  exact (@use_cache_hit _ _ search_quiet_search search call_search
           after_search_quiet (PyStr "42") Hlast eq_refl eq_refl).
Defined.

(** C2, as stated, fails: the call is not a repeat and the cache read
    returns the empty string, a value the cache does hold, yet the tool is
    run again and [on_tool_end] is called. *)
Lemma cached_empty_string_runs_tool :
  last_used_tool (tools_handler after_quiet_search) <> Some call_quiet /\
  cache_read (on_tool_start call_quiet (tools_handler after_quiet_search))
    "quiet" ∅ = PyStr "" /\
  PyStr "" <> PyNone /\
  new_events after_quiet_search
    (snd (@_use _ _ quiet_search_quiet quiet call_quiet after_quiet_search)) =
    [EvToolStart call_quiet;
     EvCacheRead "quiet" ∅;
     EvToolRun "quiet" ∅;
     EvToolEnd call_quiet (PyStr "");
     EvPrint (PyStr "");
     EvTelemetryUsage "quiet" 1].
Proof.
  repeat split; discriminate.
Qed.

Lemma use_cache_miss_runs_tool_witness :
  last_used_tool (tools_handler fresh) <> Some call_search /\
  cache_read (on_tool_start call_search (tools_handler fresh))
    "search" {[ "q" := PyStr "x" ]} = PyNone /\
  _run search {[ "q" := PyStr "x" ]} = Ok (PyStr "42") /\
  exists s',
    @_use _ _ resolving search call_search fresh = (Ok (PyStr "42"), s') /\
    tools_handler s' =
      on_tool_end call_search (PyStr "42")
        (on_tool_start call_search (tools_handler fresh)) /\
    events s' =
      events fresh ++
        [EvToolStart call_search;
         EvCacheRead "search" {[ "q" := PyStr "x" ]};
         EvToolRun "search" {[ "q" := PyStr "x" ]};
         EvToolEnd call_search (PyStr "42");
         EvPrint (PyStr "42");
         EvTelemetryUsage "search" 1].
Proof.
  assert (Hlast : last_used_tool (tools_handler fresh) <> Some call_search)
    by discriminate.
  repeat split; [exact Hlast|].
  exact (@use_cache_miss_runs_tool _ _ resolving search call_search fresh
           (PyStr "42") Hlast eq_refl eq_refl).
Defined.

Lemma tool_failure_propagates_witness :
  @_tool_calling _ resolving_y "find y" fresh =
    (Ok call_search_y, invoked (@_render _ resolving_y fresh) "find y" fresh) /\
  select_in (tools fresh) "search" = Ok search /\
  last_used_tool (tools_handler fresh) <> Some call_search_y /\
  _run search {[ "q" := PyStr "y" ]} = Raise (PyException "no results") /\
  exists s',
    @use _ _ resolving_y "find y" fresh = (Raise (PyException "no results"), s') /\
    events s' =
      [EvChainInvoke (@_render _ resolving_y fresh) "find y";
       EvToolStart call_search_y;
       EvCacheRead "search" {[ "q" := PyStr "y" ]};
       EvToolRun "search" {[ "q" := PyStr "y" ]}] /\
    llm_calls s' = 1 /\
    _run_attempts s' = 1%Z.
Proof.
  assert (Hlast : last_used_tool (tools_handler fresh) <> Some call_search_y)
    by discriminate.
  repeat split; [exact Hlast|].
  destruct (@tool_failure_propagates _ _ resolving_y "find y" fresh call_search_y
              (invoked (@_render _ resolving_y fresh) "find y" fresh) search
              (PyException "no results") eq_refl eq_refl Hlast eq_refl eq_refl)
    as (s' & Huse & _ & Hev & Hl & Ha).
  exists s'. repeat split; assumption.
Defined.

Lemma select_tool_spec_witness :
  @_select_tool Tracker.t "missing" fresh =
    (Raise (PyException "Tool 'missing' not found."), fresh) /\
  @_select_tool Tracker.t "quiet" fresh = (Ok quiet, fresh) /\
  @_select_tool Tracker.t "search" fresh = (Ok search, fresh) /\
  @_select_tool Tracker.t "Search" on_third_attempt =
    (Raise (PyException "Tool 'Search' not found."), on_third_attempt).
Proof.
  split; [|split; [|split]].
  - apply (proj1 (@select_tool_spec Tracker.t fresh "missing")).
    repeat constructor; discriminate.
  - apply (proj1 (proj2 (@select_tool_spec Tracker.t fresh "quiet")) quiet).
    + simpl. set_solver.
    + reflexivity.
    + reflexivity.
  - apply (proj1 (proj2 (proj2 (@select_tool_spec Tracker.t fresh "search")))
             [] search [search_shadowed; quiet]).
    + reflexivity.
    + constructor.
    + reflexivity.
  - apply (proj2 (proj2 (proj2 (@select_tool_spec Tracker.t on_third_attempt "Search")))
             search); reflexivity.
Defined.

Lemma tool_calling_retry_bound_witness :
  (forall k, exists e,
     @chain_invoke always_failing k (@_render _ always_failing fresh) "find x"
       = Raise e) /\
  (exists e s',
     @_tool_calling _ always_failing "find x" fresh = (Raise e, s') /\
     llm_calls s' = 3 /\
     events s' =
       [EvChainInvoke (@_render _ always_failing fresh) "find x";
        EvChainInvoke (@_render _ always_failing fresh) "find x";
        EvChainInvoke (@_render _ always_failing fresh) "find x";
        EvTelemetryError]) /\
  @chain_invoke failing_twice 0 (@_render _ failing_twice fresh) "find x"
    = parse_error "1" /\
  @chain_invoke failing_twice 1 (@_render _ failing_twice fresh) "find x"
    = parse_error "2" /\
  @chain_invoke failing_twice 2 (@_render _ failing_twice fresh) "find x"
    = Ok call_search /\
  exists s',
    @_tool_calling _ failing_twice "find x" fresh = (Ok call_search, s') /\
    _run_attempts s' = 3%Z /\
    llm_calls s' = 3 /\
    events s' =
      [EvChainInvoke (@_render _ failing_twice fresh) "find x";
       EvChainInvoke (@_render _ failing_twice fresh) "find x";
       EvChainInvoke (@_render _ failing_twice fresh) "find x"].
Proof.
  assert (Hfail : forall k, exists e,
            @chain_invoke always_failing k (@_render _ always_failing fresh) "find x"
              = Raise e).
  { intros [|[|[|k]]]; eexists; reflexivity. }
  split; [exact Hfail|].
  split.
  - exact (proj1 (@tool_calling_retry_bound _ always_failing Tracker.empty
                    [search; search_shadowed; quiet] "find x") Hfail).
  - split; [reflexivity|]. split; [reflexivity|]. split; [reflexivity|].
    exact (proj2 (@tool_calling_retry_bound _ failing_twice Tracker.empty
                    [search; search_shadowed; quiet] "find x")
             (PyException "parse error 1") (PyException "parse error 2")
             call_search eq_refl eq_refl eq_refl).
Defined.

Lemma tool_calling_raises_last_failure_witness :
  @chain_invoke always_failing 2 (@_render _ always_failing on_third_attempt) "find x"
    = parse_error "3" /\
  (_run_attempts on_third_attempt + 1 > _max_parsing_attempts on_third_attempt)%Z /\
  (exists s',
     @_tool_calling _ always_failing "find x" on_third_attempt
       = (parse_error "3", s') /\
     llm_calls s' = 3 /\
     _run_attempts s' = 4%Z /\
     events s' =
       [EvChainInvoke (@_render _ always_failing on_third_attempt) "find x";
        EvTelemetryError]) /\
  (_run_attempts (snd (@_tool_calling _ always_failing "find x" fresh)) >
   _max_parsing_attempts (snd (@_tool_calling _ always_failing "find x" fresh)))%Z /\
  exists last_call,
    llm_calls (snd (@_tool_calling _ always_failing "find x" fresh)) = S last_call /\
    @chain_invoke always_failing last_call (@_render _ always_failing fresh) "find x"
      = Raise (PyException "parse error 3").
Proof.
  split; [reflexivity|]. split; [reflexivity|]. split.
  - exact (proj1 (@tool_calling_raises_last_failure _ always_failing "find x"
                    on_third_attempt)
             (PyException "parse error 3") eq_refl eq_refl).
  - destruct (proj2 (@tool_calling_raises_last_failure _ always_failing "find x" fresh)
                (PyException "parse error 3")
                (snd (@_tool_calling _ always_failing "find x" fresh)) eq_refl)
      as (Hgt & Hlast & _).
    split; assumption.
Defined.

(** C4, as stated, fails: with three failures in a row on a fresh object,
    the first attempt failed with [parse error 1], yet the exception that
    reaches the caller is the one of the third attempt. *)
Lemma tool_calling_raises_not_the_first_failure :
  @chain_invoke always_failing 0 (@_render _ always_failing fresh) "find x"
    = Raise (PyException "parse error 1") /\
  fst (@_tool_calling _ always_failing "find x" fresh)
    = Raise (PyException "parse error 3") /\
  fst (@_tool_calling _ always_failing "find x" fresh)
    <> Raise (PyException "parse error 1").
Proof.
  split; [reflexivity|]. split; [reflexivity|]. vm_compute. discriminate.
Qed.

Lemma reported_attempts_since_construction_witness :
  let s := @after _ _ failing_once ["find x"]
             (__init__ Tracker.empty [search; search_shadowed; quiet]) in
  let s' := snd (@use _ _ failing_once "be quiet" s) in
  @use _ _ failing_once "be quiet" s = (Ok (PyStr ""), s') /\
  reported_attempts (events s') =
    Some (1 + @chain_failures failing_once 0 (events s'))%Z /\
  reported_attempts (events s') =
    Some (_run_attempts s +
          @chain_failures failing_once (llm_calls s) (new_events s s'))%Z.
Proof.
  intros s s'.
  assert (Huse : @use _ _ failing_once "be quiet" s = (Ok (PyStr ""), s'))
    by (vm_compute; reflexivity).
  split; [exact Huse|].
  destruct (@reported_attempts_since_construction _ _ failing_once
              Tracker.empty [search; search_shadowed; quiet] ["find x"]
              "be quiet" (PyStr "") s' Huse) as (Hall & Hthis & _).
  split; assumption.
Defined.

(** C9, as stated, fails: the second invocation on an object whose first
    invocation needed one retry meets no chain failure at all, yet it
    reports two attempts, not one. *)
Lemma reported_attempts_carry_over :
  fst (@use _ _ failing_once "be quiet" after_one_failure) = Ok (PyStr "") /\
  @chain_failures failing_once (llm_calls after_one_failure)
    (new_events after_one_failure
       (snd (@use _ _ failing_once "be quiet" after_one_failure))) = 0%Z /\
  reported_attempts
    (events (snd (@use _ _ failing_once "be quiet" after_one_failure)))
    = Some 2%Z /\
  reported_attempts
    (events (snd (@use _ _ failing_once "be quiet" after_one_failure)))
    <> Some (1 + @chain_failures failing_once (llm_calls after_one_failure)
                   (new_events after_one_failure
                      (snd (@use _ _ failing_once "be quiet" after_one_failure))))%Z.
Proof.
  split; [vm_compute; reflexivity|]. split; [vm_compute; reflexivity|].
  split; [vm_compute; reflexivity|]. vm_compute. discriminate.
Qed.

Lemma repeated_calls_stay_suppressed_witness :
  last_used_tool (tools_handler after_search) = Some call_search /\
  select_in (tools after_search) "search" = Ok search /\
  @all_resolve_to _ _ resolving call_search ["again"; "and again"; "once more"]
    after_search /\
  @outcomes _ _ resolving ["again"; "and again"; "once more"] after_search =
    [Ok (PyStr "I just used the search tool with input {'q': 'x'}.");
     Ok (PyStr "I just used the search tool with input {'q': 'x'}.");
     Ok (PyStr "I just used the search tool with input {'q': 'x'}.")] /\
  tools_handler (@after _ _ resolving ["again"; "and again"; "once more"] after_search)
    = tools_handler after_search.
Proof.
  assert (Hall : @all_resolve_to _ _ resolving call_search
                   ["again"; "and again"; "once more"] after_search).
  { vm_compute. repeat split. }
  assert (Hlast : last_used_tool (tools_handler after_search) = Some call_search)
    by reflexivity.
  assert (Hsel : select_in (tools after_search) "search" = Ok search)
    by reflexivity.
  split; [exact Hlast|]. split; [exact Hsel|]. split; [exact Hall|].
  destruct (@repeated_calls_stay_suppressed _ _ resolving call_search search
              ["again"; "and again"; "once more"] after_search
              Hlast Hsel Hall) as (Hout & Hh & _).
  split; assumption.
Defined.

End Runs.

(** * Further properties of the methods *)

Section Extraction.
Context {TH : Type} `{!ToolsHandler TH} `{!Collaborators}.
Implicit Types (s : ToolUsage TH) (handler : TH) (calling : ToolCalling) (tool : BaseTool).

(** The whole course of one [_tool_calling]: [n] failed chain calls, then
    one last call that either returns or makes the method give up. *)
Lemma tool_calling_shape tool_string s :
  let r := fst (_tool_calling tool_string s) in
  let s' := snd (_tool_calling tool_string s) in
  let attempt := EvChainInvoke (_render s) tool_string in
  exists n,
    llm_calls s' = llm_calls s + S n /\
    (forall i, i < n ->
       exists e, chain_invoke (llm_calls s + i) (_render s) tool_string = Raise e) /\
    match r with
    | Ok calling =>
        chain_invoke (llm_calls s + n) (_render s) tool_string = Ok calling /\
        _run_attempts s' = (_run_attempts s + Z.of_nat n)%Z /\
        (0 < n -> (_run_attempts s' <= _max_parsing_attempts s)%Z) /\
        events s' = events s ++ replicate (S n) attempt
    | Raise e =>
        chain_invoke (llm_calls s + n) (_render s) tool_string = Raise e /\
        _run_attempts s' = (_run_attempts s + Z.of_nat (S n))%Z /\
        Z.of_nat (S n) =
          Z.max 1 (_max_parsing_attempts s - _run_attempts s + 1) /\
        events s' = events s ++ replicate (S n) attempt ++ [EvTelemetryError]
    end.
Proof.
  funelim (_tool_calling tool_string s); simpl.
  - exists 0. rewrite Nat.add_0_r.
    repeat split; try lia; try assumption.
  - exists 0. rewrite Nat.add_0_r.
    repeat split; try lia; try assumption.
    rewrite <- app_assoc. reflexivity.
  - match goal with
    | IH : exists n, _ |- _ =>
        change (_render (bump_attempts (invoked (_render s) tool_string s)))
          with (_render s) in IH;
        cbn [llm_calls _run_attempts _max_parsing_attempts events
             bump_attempts invoked] in IH;
        destruct IH as (n & Hl & Hfail & Hlast)
    end.
    exists (S n). split; [lia|]. split.
    + intros [|i] Hi.
      * rewrite Nat.add_0_r. eauto.
      * destruct (Hfail i) as [e' He']; [lia|]. exists e'.
        rewrite <- He'. f_equal. lia.
    + destruct (_tool_calling tool_string
                  (bump_attempts (invoked (_render s) tool_string s))).1
        as [calling|e'].
      * destruct Hlast as (Hc & Ha & Hm & Hev). repeat split.
        -- rewrite <- Hc. f_equal. lia.
        -- lia.
        -- intros _. destruct n; lia.
        -- rewrite Hev, <- app_assoc. reflexivity.
      * destruct Hlast as (Hc & Ha & Hm & Hev). repeat split.
        -- rewrite <- Hc. f_equal. lia.
        -- lia.
        -- lia.
        -- rewrite Hev, <- app_assoc. reflexivity.
Qed.

(** X1: whatever the chain answers, one [_tool_calling] adds to the log a
    run of chain calls that all carry the same rendered catalog and the
    same instruction, followed by the error telemetry exactly when it
    raises; the handler, the tool list and the threshold are as before. *)
Theorem tool_calling_log tool_string s :
  let r := fst (_tool_calling tool_string s) in
  let s' := snd (_tool_calling tool_string s) in
  exists n,
    events s' =
      events s ++ replicate (S n) (EvChainInvoke (_render s) tool_string) ++
        match r with
        | Ok _ => []
        | Raise _ => [EvTelemetryError]
        end /\
    tools_handler s' = tools_handler s /\
    tools s' = tools s /\
    _max_parsing_attempts s' = _max_parsing_attempts s.
Proof.
  intros r s'.
  destruct (tool_calling_shape tool_string s) as (n & _ & _ & Hlast).
  destruct (tool_calling_frame tool_string s) as (Hh & Ht & Hm & _).
  exists n. fold r s' in Hlast. simpl in Hlast. repeat split; try assumption.
  destruct r; destruct Hlast as (_ & _ & _ & Hev); rewrite Hev.
  - rewrite app_nil_r. reflexivity.
  - reflexivity.
Qed.

(** X2: when [_tool_calling] returns a call, that call is what the last
    chain call returned, every chain call before it in this invocation
    raised, [_run_attempts] grew by the number of those failures, and if
    there was any failure the counter is still within the threshold. *)
Theorem tool_calling_returns_last_outcome tool_string s calling s' :
  _tool_calling tool_string s = (Ok calling, s') ->
  exists failures,
    llm_calls s' = llm_calls s + S failures /\
    (forall i, i < failures ->
       exists e, chain_invoke (llm_calls s + i) (_render s) tool_string = Raise e) /\
    chain_invoke (llm_calls s + failures) (_render s) tool_string = Ok calling /\
    _run_attempts s' = (_run_attempts s + Z.of_nat failures)%Z /\
    (0 < failures -> (_run_attempts s' <= _max_parsing_attempts s)%Z).
Proof.
  intros Hcall.
  destruct (tool_calling_shape tool_string s) as (n & Hl & Hfail & Hlast).
  rewrite Hcall in Hl, Hlast. simpl in Hl, Hlast.
  destruct Hlast as (Hc & Ha & Hm & _).
  exists n. repeat split; assumption.
Qed.

(** X3: when [_tool_calling] raises, every chain call it made raised; it
    made exactly [max 1 (_max_parsing_attempts - _run_attempts + 1)] of
    them, and it leaves [_run_attempts] at
    [max (_run_attempts + 1) (_max_parsing_attempts + 1)]. *)
Theorem tool_calling_gives_up_after tool_string s e s' :
  _tool_calling tool_string s = (Raise e, s') ->
  (Z.of_nat (llm_calls s' - llm_calls s) =
     Z.max 1 (_max_parsing_attempts s - _run_attempts s + 1))%Z /\
  _run_attempts s' =
    Z.max (_run_attempts s + 1) (_max_parsing_attempts s + 1) /\
  forall i, llm_calls s + i < llm_calls s' ->
    exists e', chain_invoke (llm_calls s + i) (_render s) tool_string = Raise e'.
Proof.
  intros Hcall.
  destruct (tool_calling_shape tool_string s) as (n & Hl & Hfail & Hlast).
  rewrite Hcall in Hl, Hlast. simpl in Hl, Hlast.
  destruct Hlast as (Hc & Ha & Hm & _).
  repeat split; try lia.
  intros i Hi. destruct (decide (i < n)) as [Hlt|Hge].
  - exact (Hfail i Hlt).
  - assert (i = n) as -> by lia. eauto.
Qed.

End Extraction.

Section Orchestration.
Context {TH : Type} `{!ToolsHandler TH} `{!Collaborators}.
Implicit Types (s : ToolUsage TH) (handler : TH) (calling : ToolCalling) (tool : BaseTool).

Ltac step_use :=
  unfold _use, handler_on_tool_start, handler_cache_read, tool_run,
    handler_on_tool_end, printer_print, telemetry_tool_usage,
    mbind, mret, M_bind, M_ret; simpl.

(** A tool returned by the scan carries the requested name and is in the
    list. *)
Lemma select_in_found available tool_name tool :
  select_in available tool_name = Ok tool ->
  name tool = tool_name /\ tool ∈ available.
Proof.
  induction available as [|other rest IH]; simpl; [discriminate|].
  destruct (String.eqb_spec (name other) tool_name) as [Heq|Hne].
  - intros [= <-]. split; [exact Heq | left].
  - intros Hrest. destruct (IH Hrest) as [Hname Hin].
    split; [exact Hname | right; exact Hin].
Qed.

(** The four ways through [_use]: repeated call, usable cached value, tool
    run that returns, tool run that raises. *)
Lemma use_inner_cases tool calling s :
  let h1 := on_tool_start calling (tools_handler s) in
  let cached := cache_read h1 (function_name calling) (arguments calling) in
  let message :=
    PyStr (task_repeated_usage (function_name calling) (arguments calling)) in
  let start :=
    [EvToolStart calling;
     EvCacheRead (function_name calling) (arguments calling)] in
  let report result :=
    [EvPrint result; EvTelemetryUsage (name tool) (_run_attempts s)] in
  let r := fst (_use tool calling s) in
  let s' := snd (_use tool calling s) in
  (last_used_tool (tools_handler s) = Some calling /\
   r = Ok message /\
   tools_handler s' = tools_handler s /\
   events s' = events s ++ report message) \/
  (last_used_tool (tools_handler s) <> Some calling /\
   truthy cached = true /\
   r = Ok cached /\
   tools_handler s' = h1 /\
   events s' = events s ++ start ++ report cached) \/
  (last_used_tool (tools_handler s) <> Some calling /\
   truthy cached = false /\
   exists output,
     _run tool (arguments calling) = Ok output /\
     r = Ok output /\
     tools_handler s' = on_tool_end calling output h1 /\
     events s' =
       events s ++ start ++
         [EvToolRun (name tool) (arguments calling); EvToolEnd calling output] ++
         report output) \/
  (last_used_tool (tools_handler s) <> Some calling /\
   truthy cached = false /\
   exists e,
     _run tool (arguments calling) = Raise e /\
     r = Raise e /\
     tools_handler s' = h1 /\
     events s' =
       events s ++ start ++ [EvToolRun (name tool) (arguments calling)]).
Proof.
  intros h1 cached message start report.
  destruct (decide (last_used_tool (tools_handler s) = Some calling))
    as [Hlast|Hlast].
  - left. step_use. rewrite (check_repeated _ _ Hlast). simpl.
    repeat split; [exact Hlast|]. rewrite <- app_assoc. reflexivity.
  - right. destruct (check_not_repeated _ _ Hlast) as (c & Hc & Hfalse).
    step_use. rewrite Hc, Hfalse. simpl. fold h1 cached.
    destruct (truthy cached) eqn:Etruthy; simpl.
    + left. repeat split; [exact Hlast|]. rewrite <- !app_assoc. reflexivity.
    + right. destruct (_run tool (arguments calling)) as [output|e] eqn:Erun;
        simpl.
      * left. split; [exact Hlast|]. split; [reflexivity|]. exists output.
        repeat split. rewrite <- !app_assoc. reflexivity.
      * right. split; [exact Hlast|]. split; [reflexivity|]. exists e.
        repeat split. rewrite <- !app_assoc. reflexivity.
Qed.

(** One [use] keeps the tool list and the threshold, never lowers the
    counters and only appends to the log. *)
Lemma use_frame tool_string s :
  let s' := snd (use tool_string s) in
  tools s' = tools s /\
  _max_parsing_attempts s' = _max_parsing_attempts s /\
  (_run_attempts s <= _run_attempts s')%Z /\
  llm_calls s < llm_calls s' /\
  exists added, events s' = events s ++ added.
Proof.
  destruct (tool_calling_frame tool_string s)
    as (_ & Ht & Hm & Ha & Hl & added & Hev & _).
  unfold use, _select_tool, mbind, M_bind.
  destruct (_tool_calling tool_string s) as [[calling|e] s1]; simpl in *.
  2: { repeat split; try assumption. eauto. }
  destruct (select_in (tools s1) (function_name calling)) as [tool|e]; simpl.
  2: { repeat split; try assumption. eauto. }
  destruct (use_inner_frame tool calling s1)
    as (Hl2 & Ha2 & Hm2 & Ht2 & added2 & Hev2 & _).
  repeat split; try congruence; try lia.
  eexists. rewrite Hev2, Hev, <- app_assoc. reflexivity.
Qed.

(** X4: once [_run_attempts] has reached [_max_parsing_attempts], as it
    has after an invocation that needed two retries, no retry is left: a
    chain call that fails makes [use] raise that failure at once, after a
    single chain call and the error telemetry, the handler untouched. *)
Theorem use_no_retry_left tool_string s e :
  (_max_parsing_attempts s <= _run_attempts s)%Z ->
  chain_invoke (llm_calls s) (_render s) tool_string = Raise e ->
  exists s',
    use tool_string s = (Raise e, s') /\
    llm_calls s' = S (llm_calls s) /\
    _run_attempts s' = (_run_attempts s + 1)%Z /\
    tools_handler s' = tools_handler s /\
    events s' =
      events s ++ [EvChainInvoke (_render s) tool_string; EvTelemetryError].
Proof.
  intros Hmax Hfail. unfold use, mbind, M_bind.
  rewrite (tool_calling_give_up _ _ _ Hfail) by lia.
  eexists. split; [reflexivity|]. repeat split.
  simpl. rewrite <- app_assoc. reflexivity.
Qed.

(** X5: when extraction gives up, [use] raises the same exception and stops
    there: no tool is selected, the handler is untouched, and the log has
    gained only the chain calls and the error telemetry, so nothing is
    printed and no usage telemetry is sent. *)
Theorem use_extraction_failure tool_string s e s1 :
  _tool_calling tool_string s = (Raise e, s1) ->
  use tool_string s = (Raise e, s1) /\
  tools_handler s1 = tools_handler s /\
  exists n,
    events s1 =
      events s ++ replicate (S n) (EvChainInvoke (_render s) tool_string) ++
        [EvTelemetryError].
Proof.
  intros Hcall.
  destruct (tool_calling_shape tool_string s) as (n & _ & _ & Hlast).
  destruct (tool_calling_frame tool_string s) as (Hh & _).
  unfold use, mbind, M_bind. rewrite Hcall in *. simpl in *.
  destruct Hlast as (_ & _ & _ & Hev). repeat split; [exact Hh|].
  exists n. exact Hev.
Qed.

(** X6: when the extracted call names a tool that is not in the list, [use]
    raises the not-found exception quoting that name.  The attempts spent
    on extraction stay counted, the handler is untouched, and the log has
    gained only the chain calls: nothing is printed and no telemetry of
    either kind is sent. *)
Theorem use_tool_not_found tool_string s calling s1 :
  _tool_calling tool_string s = (Ok calling, s1) ->
  Forall (fun tool => name tool <> function_name calling) (tools s) ->
  use tool_string s =
    (Raise (PyException ("Tool '" +:+ function_name calling +:+ "' not found.")),
     s1) /\
  tools_handler s1 = tools_handler s /\
  exists n,
    _run_attempts s1 = (_run_attempts s + Z.of_nat n)%Z /\
    events s1 =
      events s ++ replicate (S n) (EvChainInvoke (_render s) tool_string).
Proof.
  intros Hcall Habsent.
  destruct (tool_calling_shape tool_string s) as (n & _ & _ & Hlast).
  destruct (tool_calling_frame tool_string s) as (Hh & Ht & _).
  unfold use, _select_tool, mbind, M_bind. rewrite Hcall in *. simpl in *.
  rewrite Ht, (select_in_absent _ _ Habsent).
  destruct Hlast as (_ & Ha & _ & Hev). repeat split; [exact Hh|].
  exists n. split; assumption.
Qed.

(** X7: when [use] returns a result, extraction returned a call, the scan
    found a tool whose name is the call's function name, and the last two
    things [use] did were to print that result and to send the usage
    telemetry, under that function name and with the final value of
    [_run_attempts]. *)
Theorem use_returns_report tool_string s result s' :
  use tool_string s = (Ok result, s') ->
  exists calling tool before,
    fst (_tool_calling tool_string s) = Ok calling /\
    select_in (tools s) (function_name calling) = Ok tool /\
    name tool = function_name calling /\
    events s' =
      before ++ [EvPrint result;
                 EvTelemetryUsage (function_name calling) (_run_attempts s')].
Proof.
  intros Huse.
  destruct (tool_calling_frame tool_string s) as (_ & Ht & _).
  unfold use, _select_tool, mbind, M_bind in Huse.
  destruct (_tool_calling tool_string s) as [[calling|e] s1]; [|discriminate].
  simpl in Ht.
  destruct (select_in (tools s1) (function_name calling)) as [tool|e] eqn:Esel;
    [|discriminate].
  destruct (select_in_found _ _ _ Esel) as [Hname _].
  destruct (use_inner_frame tool calling s1) as (_ & Ha & _).
  pose proof (use_inner_cases tool calling s1) as Hcases.
  rewrite Huse in Ha, Hcases. simpl in Ha, Hcases.
  assert (Hend : exists before,
            events s' =
              before ++ [EvPrint result;
                         EvTelemetryUsage (name tool) (_run_attempts s1)]).
  { destruct Hcases as [(_ & [= <-] & _ & Hev) | [(_ & _ & [= <-] & _ & Hev)
      | [(_ & _ & output & _ & [= <-] & _ & Hev) | (_ & _ & e & _ & [=] & _)]]].
    - exists (events s1). exact Hev.
    - exists (events s1 ++
                [EvToolStart calling;
                 EvCacheRead (function_name calling) (arguments calling)]).
      rewrite Hev, <- app_assoc. reflexivity.
    - exists (events s1 ++
                [EvToolStart calling;
                 EvCacheRead (function_name calling) (arguments calling);
                 EvToolRun (name tool) (arguments calling);
                 EvToolEnd calling result]).
      rewrite Hev, <- app_assoc. reflexivity. }
  destruct Hend as [before Hev].
  exists calling, tool, before.
  split; [reflexivity|]. split; [rewrite <- Ht; exact Esel|].
  split; [exact Hname|]. rewrite Ha, <- Hname. exact Hev.
Qed.

(** X8: over any sequence of invocations, whether they return or raise,
    the tool list, the threshold and therefore the rendered catalog stay
    the same, [_run_attempts] and the number of chain calls never
    decrease, and the log is only appended to. *)
Theorem use_preserves instructions s :
  tools (after instructions s) = tools s /\
  _max_parsing_attempts (after instructions s) = _max_parsing_attempts s /\
  _render (after instructions s) = _render s /\
  (_run_attempts s <= _run_attempts (after instructions s))%Z /\
  llm_calls s <= llm_calls (after instructions s) /\
  exists added, events (after instructions s) = events s ++ added.
Proof.
  revert s. induction instructions as [|tool_string rest IH]; intros s.
  - simpl. repeat split; try lia. exists []. rewrite app_nil_r. reflexivity.
  - simpl. destruct (IH (snd (use tool_string s)))
      as (Ht & Hm & Hr & Ha & Hl & added & Hev).
    destruct (use_frame tool_string s) as (Ht1 & Hm1 & Ha1 & Hl1 & added1 & Hev1).
    repeat split; try congruence; try lia.
    + unfold _render in *. congruence.
    + eexists. rewrite Hev, Hev1, <- app_assoc. reflexivity.
Qed.

(** X9: a cached value that is falsy, the empty string or zero as much as
    [None], does not count as a hit: when the call is not a repeat and the
    tool returns [output], [_use] runs the tool, hands [output] to
    [on_tool_end], and returns [output] in place of the cached value. *)
Theorem use_falsy_cache_runs_tool tool calling s output :
  last_used_tool (tools_handler s) <> Some calling ->
  truthy (cache_read (on_tool_start calling (tools_handler s))
            (function_name calling) (arguments calling)) = false ->
  _run tool (arguments calling) = Ok output ->
  exists s',
    _use tool calling s = (Ok output, s') /\
    tools_handler s' =
      on_tool_end calling output (on_tool_start calling (tools_handler s)) /\
    events s' =
      events s ++ [EvToolStart calling;
                   EvCacheRead (function_name calling) (arguments calling);
                   EvToolRun (name tool) (arguments calling);
                   EvToolEnd calling output;
                   EvPrint output;
                   EvTelemetryUsage (name tool) (_run_attempts s)].
Proof.
  intros Hlast Hfalsy Hrun.
  destruct (check_not_repeated _ _ Hlast) as (c & Hc & Hfalse).
  step_use. rewrite Hc, Hfalse. simpl. rewrite Hfalsy. simpl. rewrite Hrun.
  eexists; split; [reflexivity|]. split; [reflexivity|].
  simpl. rewrite <- !app_assoc. reflexivity.
Qed.

Ltac no_tool_run :=
  intros ? ? Hin;
  repeat (apply elem_of_cons in Hin as [Hin|Hin]; [discriminate Hin|]);
  apply elem_of_nil in Hin; exact Hin.

(** X10: [_use] runs the tool exactly when the call is not a repeat and the
    cache read gives a falsy value.  In that case it runs it once, under
    the tool's name and with the call's arguments; in every other case no
    tool run is logged at all. *)
Theorem use_runs_tool_iff tool calling s :
  let added := new_events s (snd (_use tool calling s)) in
  let miss :=
    last_used_tool (tools_handler s) <> Some calling /\
    truthy (cache_read (on_tool_start calling (tools_handler s))
              (function_name calling) (arguments calling)) = false in
  (miss ->
   exists before after,
     added = before ++ EvToolRun (name tool) (arguments calling) :: after /\
     (forall tool_name kwargs, EvToolRun tool_name kwargs ∉ before) /\
     (forall tool_name kwargs, EvToolRun tool_name kwargs ∉ after)) /\
  (~ miss -> forall tool_name kwargs, EvToolRun tool_name kwargs ∉ added).
Proof.
  intros added miss. subst added miss.
  destruct (use_inner_cases tool calling s)
    as [(Hlast & _ & _ & Hev) | [(Hlast & Hhit & _ & _ & Hev)
    | [(Hlast & Hmiss & output & _ & _ & _ & Hev)
    | (Hlast & Hmiss & e & _ & _ & _ & Hev)]]];
    rewrite (new_events_app _ _ _ Hev); simpl; split.
  - intros [Hne _]. contradiction.
  - intros _. no_tool_run.
  - intros [_ Hfalsy]. congruence.
  - intros _. no_tool_run.
  - intros _.
    exists [EvToolStart calling;
            EvCacheRead (function_name calling) (arguments calling)],
           [EvToolEnd calling output; EvPrint output;
            EvTelemetryUsage (name tool) (_run_attempts s)].
    split; [reflexivity|]. split; no_tool_run.
  - intros Hnot. destruct Hnot. split; assumption.
  - intros _.
    exists [EvToolStart calling;
            EvCacheRead (function_name calling) (arguments calling)], [].
    split; [reflexivity|]. split; no_tool_run.
  - intros Hnot. destruct Hnot. split; assumption.
Qed.

(** X11: the result [_use] returns is one of three things: the
    repeated-usage message, when the call repeats the last one; the cached
    value, when the call is not a repeat and that value is truthy; or what
    the tool returned on the call's arguments, when the call is not a
    repeat and the cached value is falsy. *)
Theorem use_inner_result tool calling s result s' :
  _use tool calling s = (Ok result, s') ->
  let cached :=
    cache_read (on_tool_start calling (tools_handler s))
      (function_name calling) (arguments calling) in
  (last_used_tool (tools_handler s) = Some calling /\
   result =
     PyStr (task_repeated_usage (function_name calling) (arguments calling))) \/
  (last_used_tool (tools_handler s) <> Some calling /\
   truthy cached = true /\ result = cached) \/
  (last_used_tool (tools_handler s) <> Some calling /\
   truthy cached = false /\ _run tool (arguments calling) = Ok result).
Proof.
  intros Huse cached. pose proof (use_inner_cases tool calling s) as Hcases.
  rewrite Huse in Hcases. simpl in Hcases. fold cached in Hcases.
  destruct Hcases as [(Hlast & [= <-] & _) | [(Hlast & Hhit & [= <-] & _)
    | [(Hlast & Hmiss & output & Hrun & [= <-] & _)
    | (_ & _ & e & _ & [=] & _)]]].
  - left. split; [exact Hlast | reflexivity].
  - right. left. repeat split; assumption.
  - right. right. repeat split; assumption.
Qed.

(** X12: with a handler whose [on_tool_start] records the call as the last
    used one and whose [on_tool_end] leaves that record alone, any [_use]
    of a call, whatever it did (repeat, cache hit, tool run that returned,
    tool run that raised), makes the next [_use] of the same call a repeat:
    it returns the repeated-usage message and goes no further than the
    print and the usage telemetry.  So a call whose tool has just raised
    is not run again when it is issued once more. *)
Theorem call_is_repeated_after_any_use tool tool' calling s :
  (forall c handler, last_used_tool (on_tool_start c handler) = Some c) ->
  (forall c output handler,
     last_used_tool (on_tool_end c output handler) = last_used_tool handler) ->
  let s1 := snd (_use tool calling s) in
  let message :=
    PyStr (task_repeated_usage (function_name calling) (arguments calling)) in
  exists s2,
    _use tool' calling s1 = (Ok message, s2) /\
    tools_handler s2 = tools_handler s1 /\
    events s2 =
      events s1 ++
        [EvPrint message; EvTelemetryUsage (name tool') (_run_attempts s1)].
Proof.
  intros Hstart Hend s1 message.
  assert (Hlast : last_used_tool (tools_handler s1) = Some calling).
  { subst s1. destruct (use_inner_cases tool calling s)
      as [(Hlast & _ & Hh & _) | [(_ & _ & _ & Hh & _)
      | [(_ & _ & output & _ & _ & Hh & _) | (_ & _ & e & _ & _ & Hh & _)]]];
      rewrite Hh, ?Hend, ?Hstart; try reflexivity. exact Hlast. }
  destruct (use_repeated_step tool' calling s1 Hlast) as (s2 & Hrun & Hh & _ & Hev).
  exists s2. repeat split; assumption.
Qed.

(** X13: [_select_tool] returns a tool exactly when that tool is the first
    one of the list carrying the requested name, and raises exactly when
    no tool of the list carries it; either way the object is unchanged. *)
Theorem select_tool_sound_complete s tool_name :
  (forall tool s',
     _select_tool tool_name s = (Ok tool, s') <->
     s' = s /\
     exists before after,
       tools s = before ++ tool :: after /\
       name tool = tool_name /\
       Forall (fun other => name other <> tool_name) before) /\
  (forall e s',
     _select_tool tool_name s = (Raise e, s') <->
     s' = s /\
     e = PyException ("Tool '" +:+ tool_name +:+ "' not found.") /\
     Forall (fun tool => name tool <> tool_name) (tools s)).
Proof.
  unfold _select_tool. split.
  - intros tool s'. split.
    + intros [= Hsel <-]. split; [reflexivity|].
      destruct (first_named (tools s) tool_name)
        as [Habsent | (before & found & after & Heq & Hname & Hbefore)].
      * rewrite (select_in_absent _ _ Habsent) in Hsel. discriminate.
      * rewrite Heq, (select_in_first _ _ _ _ Hbefore Hname) in Hsel.
        injection Hsel as <-. eauto.
    + intros (-> & before & after & Heq & Hname & Hbefore).
      rewrite Heq, (select_in_first _ _ _ _ Hbefore Hname). reflexivity.
  - intros e s'. split.
    + intros [= Hsel <-]. split; [reflexivity|].
      destruct (first_named (tools s) tool_name)
        as [Habsent | (before & found & after & Heq & Hname & Hbefore)].
      * rewrite (select_in_absent _ _ Habsent) in Hsel.
        injection Hsel as <-. split; [reflexivity | exact Habsent].
      * rewrite Heq, (select_in_first _ _ _ _ Hbefore Hname) in Hsel.
        discriminate.
    + intros (-> & -> & Habsent).
      rewrite (select_in_absent _ _ Habsent). reflexivity.
Qed.

End Orchestration.

Section Catalog.
Context {TH : Type} `{!Collaborators}.
Implicit Types (s : ToolUsage TH) (schema : list (string * list (string * string))).

Lemma append_assoc (a b c : string) : (a +:+ b) +:+ c = a +:+ (b +:+ c).
Proof.
  induction a as [|ch a IH]; [reflexivity|].
  change (String ch ((a +:+ b) +:+ c) = String ch (a +:+ b +:+ c)).
  f_equal. exact IH.
Qed.

Lemma concat_app (sep : string) (l1 l2 : list string) :
  l1 <> [] -> l2 <> [] ->
  String.concat sep (l1 ++ l2) =
    String.concat sep l1 +:+ sep +:+ String.concat sep l2.
Proof.
  intros H1 H2. induction l1 as [|x [|y l1] IH]; [contradiction | |].
  - destruct l2; [contradiction | reflexivity].
  - change (String.concat sep ((x :: y :: l1) ++ l2))
      with (x +:+ sep +:+ String.concat sep ((y :: l1) ++ l2)).
    rewrite IH by discriminate.
    change (String.concat sep (x :: y :: l1))
      with (x +:+ sep +:+ String.concat sep (y :: l1)).
    rewrite !append_assoc. reflexivity.
Qed.

(** X14: the catalog [_render] builds.  (1) With no tools it is the empty
    string.  (2) For a single tool it is three lines: the name, the
    filtered argument schema as Python prints it, the description.
    (3) For a tool list made of two non-empty parts it is the catalog of
    the first part, a line holding two dashes, and the catalog of the
    second part: the tools come in list order. *)
Theorem render_catalog s :
  (tools s = [] -> _render s = "") /\
  (forall tool,
     tools s = [tool] ->
     _render s =
       "Funtion Name: " +:+ name tool +:+ nl +:+
       "Funtion attributes: " +:+ repr_args (filter_schema (args tool)) +:+ nl +:+
       "Description: " +:+ description tool) /\
  (forall s1 s2,
     tools s = tools s1 ++ tools s2 -> tools s1 <> [] -> tools s2 <> [] ->
     _render s = _render s1 +:+ nl +:+ "--" +:+ nl +:+ _render s2).
Proof.
  unfold _render. repeat split.
  - intros ->. reflexivity.
  - intros tool ->. simpl. rewrite ?append_assoc. reflexivity.
  - intros s1 s2 -> H1 H2. rewrite map_app, concat_app.
    + rewrite !append_assoc. reflexivity.
    + destruct (tools s1); [contradiction | discriminate].
    + destruct (tools s2); [contradiction | discriminate].
Qed.

(** X15: what [_render] keeps of a tool's argument schema.  (1) Every
    argument stays, in the same order.  (2) Each property that is left is
    named [description] or [type] and was a property of that argument.
    (3) An argument whose properties are all named so is kept as it is.
    (4) Filtering a second time changes nothing. *)
Theorem filter_schema_keeps schema :
  map fst (filter_schema schema) = map fst schema /\
  (forall argument properties key value,
     (argument, properties) ∈ filter_schema schema ->
     (key, value) ∈ properties ->
     (key = "description" \/ key = "type") /\
     exists declared,
       (argument, declared) ∈ schema /\ (key, value) ∈ declared) /\
  (forall argument properties,
     (argument, properties) ∈ schema ->
     Forall (fun property =>
               fst property = "description" \/ fst property = "type")
            properties ->
     (argument, properties) ∈ filter_schema schema) /\
  filter_schema (filter_schema schema) = filter_schema schema.
Proof.
  set (kept := fun property : string * string =>
                 orb (String.eqb (fst property) "description")
                     (String.eqb (fst property) "type")).
  assert (Hkept : forall property,
            Is_true (kept property) <->
            fst property = "description" \/ fst property = "type").
  { intros property. unfold kept. rewrite orb_True.
    rewrite !Is_true_true, !String.eqb_eq. reflexivity. }
  assert (Hclean : forall properties,
            Forall (fun property =>
                      fst property = "description" \/ fst property = "type")
                   properties ->
            filter kept properties = properties).
  { intros properties Hall. induction Hall as [|property rest Hp _ IH].
    - reflexivity.
    - rewrite filter_cons_True by (apply Hkept, Hp). rewrite IH. reflexivity. }
  subst kept. cbv beta in Hkept.
  split; [|split; [|split]].
  - unfold filter_schema. rewrite map_map. reflexivity.
  - intros argument properties key value Hin Hprop.
    induction schema as [|[arg props] rest IH]; simpl in Hin.
    + apply elem_of_nil in Hin. destruct Hin.
    + apply elem_of_cons in Hin as [[= -> ->]|Hin].
      * apply list_elem_of_filter in Hprop as [Hk Hv]. split.
        -- apply (Hkept (key, value)), Hk.
        -- exists props. split; [left | exact Hv].
      * destruct (IH Hin) as (Hkey & declared & Hd & Hv).
        split; [exact Hkey|].
        exists declared. split; [right; exact Hd | exact Hv].
  - intros argument properties Hin Hall.
    induction schema as [|[arg props] rest IH].
    + apply elem_of_nil in Hin. destruct Hin.
    + simpl. apply elem_of_cons in Hin as [[= <- <-]|Hin].
      * rewrite (Hclean _ Hall). left.
      * right. exact (IH Hin).
  - induction schema as [|[arg props] rest IH]; simpl; [reflexivity|].
    f_equal; [|exact IH]. f_equal. apply Hclean.
    apply Forall_forall. intros property Hp.
    apply list_elem_of_filter in Hp as [Hk _]. apply Hkept, Hk.
Qed.

End Catalog.

(** * The further properties on concrete runs *)

Section MoreRuns.
Import Script.

Lemma tool_calling_returns_last_outcome_witness :
  let s' := snd (@_tool_calling _ failing_twice "find x" fresh) in
  @_tool_calling _ failing_twice "find x" fresh = (Ok call_search, s') /\
  exists failures,
    llm_calls s' = llm_calls fresh + S failures /\
    @chain_invoke failing_twice (llm_calls fresh + failures)
      (@_render _ failing_twice fresh) "find x" = Ok call_search /\
    _run_attempts s' = (_run_attempts fresh + Z.of_nat failures)%Z.
Proof.
  intros s'.
  assert (Hcall : @_tool_calling _ failing_twice "find x" fresh
                  = (Ok call_search, s')) by (vm_compute; reflexivity).
  split; [exact Hcall|].
  destruct (@tool_calling_returns_last_outcome _ failing_twice "find x" fresh
              call_search s' Hcall) as (failures & Hl & _ & Hc & Ha & _).
  exists failures. repeat split; assumption.
Defined.

Lemma tool_calling_gives_up_after_witness :
  let s' := snd (@_tool_calling _ always_failing "find x" fresh) in
  @_tool_calling _ always_failing "find x" fresh = (parse_error "3", s') /\
  (Z.of_nat (llm_calls s' - llm_calls fresh) =
     Z.max 1 (_max_parsing_attempts fresh - _run_attempts fresh + 1))%Z /\
  _run_attempts s' =
    Z.max (_run_attempts fresh + 1) (_max_parsing_attempts fresh + 1).
Proof.
  intros s'.
  assert (Hcall : @_tool_calling _ always_failing "find x" fresh
                  = (parse_error "3", s')) by (vm_compute; reflexivity).
  split; [exact Hcall|].
  destruct (@tool_calling_gives_up_after _ always_failing "find x" fresh
              (PyException "parse error 3") s' Hcall) as (Hn & Ha & _).
  split; assumption.
Defined.

Lemma use_no_retry_left_witness :
  (_max_parsing_attempts after_two_retries <= _run_attempts after_two_retries)%Z /\
  @chain_invoke retries_spent (llm_calls after_two_retries)
    (@_render _ retries_spent after_two_retries) "find y" = parse_error "n" /\
  exists s',
    @use _ _ retries_spent "find y" after_two_retries
      = (Raise (PyException "parse error n"), s') /\
    llm_calls s' = S (llm_calls after_two_retries) /\
    tools_handler s' = tools_handler after_two_retries.
Proof.
  assert (Hmax : (_max_parsing_attempts after_two_retries
                  <= _run_attempts after_two_retries)%Z)
    by (vm_compute; discriminate).
  assert (Hfail : @chain_invoke retries_spent (llm_calls after_two_retries)
                    (@_render _ retries_spent after_two_retries) "find y"
                  = parse_error "n") by (vm_compute; reflexivity).
  split; [exact Hmax|]. split; [exact Hfail|].
  destruct (@use_no_retry_left _ _ retries_spent "find y" after_two_retries
              (PyException "parse error n") Hmax Hfail)
    as (s' & Huse & Hl & _ & Hh & _).
  exists s'. repeat split; assumption.
Defined.

Lemma use_extraction_failure_witness :
  let s1 := snd (@_tool_calling _ always_failing "find x" fresh) in
  @_tool_calling _ always_failing "find x" fresh = (parse_error "3", s1) /\
  @use _ _ always_failing "find x" fresh
    = (Raise (PyException "parse error 3"), s1) /\
  tools_handler s1 = tools_handler fresh.
Proof.
  intros s1.
  assert (Hcall : @_tool_calling _ always_failing "find x" fresh
                  = (parse_error "3", s1)) by (vm_compute; reflexivity).
  split; [exact Hcall|].
  destruct (@use_extraction_failure _ _ always_failing "find x" fresh
              (PyException "parse error 3") s1 Hcall) as (Huse & Hh & _).
  split; assumption.
Defined.

Lemma use_tool_not_found_witness :
  let s1 := snd (@_tool_calling _ resolving_missing "do it" fresh) in
  @_tool_calling _ resolving_missing "do it" fresh = (Ok call_missing, s1) /\
  Forall (fun tool => name tool <> function_name call_missing) (tools fresh) /\
  @use _ _ resolving_missing "do it" fresh =
    (Raise (PyException ("Tool '" +:+ function_name call_missing +:+ "' not found.")),
     s1) /\
  tools_handler s1 = tools_handler fresh.
Proof.
  intros s1.
  assert (Hcall : @_tool_calling _ resolving_missing "do it" fresh
                  = (Ok call_missing, s1)) by (vm_compute; reflexivity).
  assert (Habsent : Forall (fun tool => name tool <> function_name call_missing)
                      (tools fresh)) by (repeat constructor; discriminate).
  split; [exact Hcall|]. split; [exact Habsent|].
  destruct (@use_tool_not_found _ _ resolving_missing "do it" fresh
              call_missing s1 Hcall Habsent) as (Huse & Hh & _).
  split; assumption.
Defined.

Lemma use_returns_report_witness :
  let s' := snd (@use _ _ resolving "find x" fresh) in
  @use _ _ resolving "find x" fresh = (Ok (PyStr "42"), s') /\
  exists calling tool before,
    fst (@_tool_calling _ resolving "find x" fresh) = Ok calling /\
    select_in (tools fresh) (function_name calling) = Ok tool /\
    name tool = function_name calling /\
    events s' =
      before ++ [EvPrint (PyStr "42");
                 EvTelemetryUsage (function_name calling) (_run_attempts s')].
Proof.
  intros s'.
  assert (Huse : @use _ _ resolving "find x" fresh = (Ok (PyStr "42"), s'))
    by (vm_compute; reflexivity).
  split; [exact Huse|].
  exact (@use_returns_report _ _ resolving "find x" fresh (PyStr "42") s' Huse).
Defined.

Lemma use_falsy_cache_runs_tool_witness :
  last_used_tool (tools_handler after_quiet_search) <> Some call_quiet /\
  truthy (cache_read (on_tool_start call_quiet (tools_handler after_quiet_search))
            "quiet" ∅) = false /\
  _run quiet ∅ = Ok (PyStr "") /\
  exists s',
    @_use _ _ quiet_search_quiet quiet call_quiet after_quiet_search
      = (Ok (PyStr ""), s') /\
    tools_handler s' =
      on_tool_end call_quiet (PyStr "")
        (on_tool_start call_quiet (tools_handler after_quiet_search)).
Proof.
  assert (Hlast : last_used_tool (tools_handler after_quiet_search)
                  <> Some call_quiet) by (vm_compute; discriminate).
  assert (Hfalsy : truthy (cache_read
                     (on_tool_start call_quiet (tools_handler after_quiet_search))
                     "quiet" ∅) = false) by (vm_compute; reflexivity).
  split; [exact Hlast|]. split; [exact Hfalsy|]. split; [reflexivity|].
  destruct (@use_falsy_cache_runs_tool _ _ quiet_search_quiet quiet call_quiet
              after_quiet_search (PyStr "") Hlast Hfalsy eq_refl)
    as (s' & Huse & Hh & _).
  exists s'. split; assumption.
Defined.

Lemma use_runs_tool_iff_witness :
  (last_used_tool (tools_handler fresh) <> Some call_search /\
   truthy (cache_read (on_tool_start call_search (tools_handler fresh))
             "search" {[ "q" := PyStr "x" ]}) = false) /\
  (exists before after,
     new_events fresh (snd (@_use _ _ resolving search call_search fresh)) =
       before ++ EvToolRun "search" {[ "q" := PyStr "x" ]} :: after) /\
  ~ (last_used_tool (tools_handler after_search) <> Some call_search /\
     truthy (cache_read (on_tool_start call_search (tools_handler after_search))
               "search" {[ "q" := PyStr "x" ]}) = false) /\
  forall tool_name kwargs,
    EvToolRun tool_name kwargs ∉
      new_events after_search
        (snd (@_use _ _ resolving search call_search after_search)).
Proof.
  assert (Hmiss : last_used_tool (tools_handler fresh) <> Some call_search /\
                  truthy (cache_read (on_tool_start call_search (tools_handler fresh))
                            "search" {[ "q" := PyStr "x" ]}) = false)
    by (split; [discriminate | reflexivity]).
  assert (Hrepeat : ~ (last_used_tool (tools_handler after_search)
                       <> Some call_search /\
                       truthy (cache_read
                                 (on_tool_start call_search
                                    (tools_handler after_search))
                                 "search" {[ "q" := PyStr "x" ]}) = false)).
  { intros [Hne _]. apply Hne. vm_compute. reflexivity. }
  split; [exact Hmiss|]. split.
  - destruct (proj1 (@use_runs_tool_iff _ _ resolving search call_search fresh)
                Hmiss) as (before & after & Heq & _).
    exists before, after. exact Heq.
  - split; [exact Hrepeat|].
    exact (proj2 (@use_runs_tool_iff _ _ resolving search call_search after_search)
             Hrepeat).
Defined.

Lemma use_inner_result_witness :
  let s' := snd (@_use _ _ resolving search call_search fresh) in
  @_use _ _ resolving search call_search fresh = (Ok (PyStr "42"), s') /\
  ((last_used_tool (tools_handler fresh) = Some call_search /\
    PyStr "42" = PyStr (@task_repeated_usage resolving "search" {[ "q" := PyStr "x" ]})) \/
   (last_used_tool (tools_handler fresh) <> Some call_search /\
    truthy (cache_read (on_tool_start call_search (tools_handler fresh))
              "search" {[ "q" := PyStr "x" ]}) = true /\
    PyStr "42" = cache_read (on_tool_start call_search (tools_handler fresh))
                   "search" {[ "q" := PyStr "x" ]}) \/
   (last_used_tool (tools_handler fresh) <> Some call_search /\
    truthy (cache_read (on_tool_start call_search (tools_handler fresh))
              "search" {[ "q" := PyStr "x" ]}) = false /\
    _run search {[ "q" := PyStr "x" ]} = Ok (PyStr "42"))).
Proof.
  intros s'.
  assert (Huse : @_use _ _ resolving search call_search fresh
                 = (Ok (PyStr "42"), s')) by (vm_compute; reflexivity).
  split; [exact Huse|].
  exact (@use_inner_result _ _ resolving search call_search fresh
           (PyStr "42") s' Huse).
Defined.

Lemma call_is_repeated_after_any_use_witness :
  (forall c handler,
     last_used_tool (on_tool_start c handler) = Some c) /\
  (forall c output (handler : Tracker.t),
     last_used_tool (on_tool_end c output handler) = last_used_tool handler) /\
  fst (@_use _ _ resolving_y search call_search_y fresh)
    = Raise (PyException "no results") /\
  exists s2,
    @_use _ _ resolving_y search call_search_y
        (snd (@_use _ _ resolving_y search call_search_y fresh))
      = (Ok (PyStr (@task_repeated_usage resolving_y "search" {[ "q" := PyStr "y" ]})),
         s2).
Proof.
  assert (Hstart : forall c (handler : Tracker.t),
            last_used_tool (on_tool_start c handler) = Some c)
    by (intros; reflexivity).
  assert (Hend : forall c output (handler : Tracker.t),
            last_used_tool (on_tool_end c output handler) = last_used_tool handler)
    by (intros; reflexivity).
  split; [exact Hstart|]. split; [exact Hend|].
  split; [vm_compute; reflexivity|].
  destruct (@call_is_repeated_after_any_use _ _ resolving_y search search
              call_search_y fresh Hstart Hend) as (s2 & Huse & _).
  exists s2. exact Huse.
Defined.

Lemma select_tool_sound_complete_witness :
  (exists before after,
     tools fresh = before ++ search :: after /\
     name search = "search" /\
     Forall (fun other => name other <> "search") before) /\
  @_select_tool Tracker.t "missing" fresh =
    (Raise (PyException "Tool 'missing' not found."), fresh).
Proof.
  split.
  - apply (proj1 (proj1 (@select_tool_sound_complete Tracker.t fresh "search")
                    search fresh)).
    reflexivity.
  - apply (proj2 (proj2 (@select_tool_sound_complete Tracker.t fresh "missing")
                    (PyException "Tool 'missing' not found.") fresh)).
    split; [reflexivity|]. split; [reflexivity|].
    repeat constructor; discriminate.
Defined.

Lemma render_catalog_witness :
  @_render Tracker.t resolving (__init__ Tracker.empty []) = "" /\
  @_render Tracker.t resolving (__init__ Tracker.empty [quiet]) =
    "Funtion Name: quiet" +:+ nl +:+
    "Funtion attributes: {}" +:+ nl +:+
    "Description: Says nothing" /\
  @_render Tracker.t resolving fresh =
    @_render Tracker.t resolving (__init__ Tracker.empty [search]) +:+
    nl +:+ "--" +:+ nl +:+
    @_render Tracker.t resolving (__init__ Tracker.empty [search_shadowed; quiet]).
Proof.
  split; [|split].
  - apply (proj1 (@render_catalog Tracker.t resolving (__init__ Tracker.empty []))).
    reflexivity.
  - apply (proj1 (proj2 (@render_catalog Tracker.t resolving
                           (__init__ Tracker.empty [quiet]))) quiet).
    reflexivity.
  - apply (proj2 (proj2 (@render_catalog Tracker.t resolving fresh))
             (__init__ Tracker.empty [search])
             (__init__ Tracker.empty [search_shadowed; quiet]));
      [reflexivity | discriminate | discriminate].
Defined.

Lemma filter_schema_keeps_witness :
  ("q", [("type", "string")]) ∈ filter_schema (args search) /\
  ("type" = "description" \/ "type" = "type") /\
  (exists declared,
     ("q", declared) ∈ args search /\ ("type", "string") ∈ declared) /\
  ("q", [("type", "string")]) ∈ filter_schema [("q", [("type", "string")])].
Proof.
  assert (Hin : ("q", [("type", "string")]) ∈ filter_schema (args search))
    by (apply list_elem_of_here).
  assert (Hprop : ("type", "string") ∈ [("type", "string")]) by left.
  split; [exact Hin|].
  destruct (proj1 (proj2 (filter_schema_keeps (args search)))
              "q" [("type", "string")] "type" "string" Hin Hprop)
    as (Hkey & Hdeclared).
  split; [exact Hkey|]. split; [exact Hdeclared|].
  apply (proj1 (proj2 (proj2 (filter_schema_keeps [("q", [("type", "string")])])))
           "q" [("type", "string")]).
  - apply list_elem_of_here.
  - constructor; [right; reflexivity | constructor].
Defined.

End MoreRuns.
